(** * Alpine Athletics Resort server: booking endpoints and admin guard

    A shallow embedding of [server.js] (the Express routes over the
    file-backed booking list) and of [middleware/auth.js] (the bearer
    guard of the admin routes), with the properties of the booking
    lifecycle proved over it. *)

From Stdlib Require Import Ascii String QArith.
From stdpp Require Import gmap strings list fin_maps pretty.

#[local] Set Warnings "-register-all".

(** ** JavaScript values *)

(** The values [JSON.parse] produces.  A number is kept as the rational
    it denotes (the non-finite doubles, which JSON cannot write back, are
    left out).  An object is a finite map from property names; a property
    that is absent reads as [undefined], which is [None] throughout. *)
Inductive json : Type :=
  | JNull
  | JBool (b : bool)
  | JNum (q : Q)
  | JStr (s : string)
  | JArr (l : list json)
  | JObj (o : gmap string json).

Abbreviation object := (gmap string json).

(** A value or [undefined]. *)
Abbreviation jsval := (option json).

(** ToBoolean, as used by [!x] and [x || y]. *)
Definition truthy (v : jsval) : bool :=
  match v with
  | None => false
  | Some JNull => false
  | Some (JBool b) => b
  | Some (JNum q) => negb (Qeq_bool q 0)
  | Some (JStr s) => negb (String.eqb s "")
  | Some (JArr _) => true
  | Some (JObj _) => true
  end.

(** [x || y] *)
Definition js_or (x y : jsval) : jsval := if truthy x then x else y.

(** [x === s] for a string [s]: no coercion, so only a string equal to
    [s] passes. *)
Definition strict_eq_str (x : jsval) (s : string) : bool :=
  match x with
  | Some (JStr t) => bool_decide (t = s)
  | _ => false
  end.

(** Evaluation that may throw; the routes catch every exception. *)
Inductive result (A : Type) : Type :=
  | Ok (a : A)
  | Throw.
Arguments Ok {A} a.
Arguments Throw {A}.

(** [x.k] for a property name [k] that no prototype defines ([id],
    [status], [fullName], ...): a TypeError on [null], the own property
    on an object, [undefined] on every other value. *)
Definition get (x : json) (k : string) : result jsval :=
  match x with
  | JNull => Throw
  | JObj o => Ok (o !! k)
  | _ => Ok None
  end.

(** How a property holding [v] shows once the object is serialised
    ([JSON.stringify] in [fs.writeFile] and in [res.json]): a property
    holding [undefined] is left out.  Every object of the routes is only
    ever serialised after it is built or assigned to, so both an object
    literal entry [k: v] and an assignment [x.k = v] are this function. *)
Definition set_prop (k : string) (v : jsval) (o : object) : object :=
  match v with
  | Some w => <[k := w]> o
  | None => delete k o
  end.

(** [x.k = v] on an element of a parsed array.  Outside an object the
    assignment leaves nothing that is serialised (sloppy mode), and it
    throws on [null]. *)
Definition assign (x : json) (k : string) (v : jsval) : result json :=
  match x with
  | JNull => Throw
  | JObj o => Ok (JObj (set_prop k v o))
  | _ => Ok x
  end.

(** [s.split(sep)] for a one-character separator: the pieces between the
    occurrences of [sep]; never the empty list. *)
Fixpoint split_aux (sep : Ascii.ascii) (s : string) : string * list string :=
  match s with
  | EmptyString => (EmptyString, [])
  | String c r =>
      let '(t, ts) := split_aux sep r in
      if Ascii.eqb c sep then (EmptyString, t :: ts) else (String c t, ts)
  end.

Definition split (sep : Ascii.ascii) (s : string) : list string :=
  let '(t, ts) := split_aux sep s in t :: ts.

(** ** HTTP responses *)

Record response : Type := Response { code : nat; payload : json }.

(** [res.status(c).json({ message: m })] *)
Definition message_response (c : nat) (m : string) : response :=
  Response c (JObj {[ "message" := JStr m ]}).

(** ** middleware/auth.js *)

(** What a middleware does with a request: call [next()] or answer. *)
Inductive verdict : Type :=
  | Next
  | Answer (r : response).

(** The hard-coded ['Password1'] of [auth] and of the login route. *)
Definition secret : string := "Password1".

(** The two answers of [auth]. *)
Definition unauthorized : response :=
  message_response 401 "Unauthorized: No credentials provided".

Definition forbidden : response :=
  message_response 403 "Forbidden: Invalid credentials".

(** [auth], on [req.headers['authorization']]. *)
Definition auth (bearerHeader : option string) : verdict :=
  match bearerHeader with
  | Some h =>
      let bearer := split " "%char h in
      let bearerToken := bearer !! 1%nat in
      if bool_decide (bearerToken = Some secret) then Next
      else Answer forbidden
  | None => Answer unauthorized
  end.

(** ** The bookings file and the calls that may throw *)

(** What [data/bookings.json] holds: text that [JSON.parse] rejects, or
    the document it parses to. *)
Inductive content : Type :=
  | Malformed
  | Document (v : json).

(** The state of the server: the bookings file, [None] while it does not
    exist.  Writes are taken to succeed. *)
Abbreviation file := (option content).

(** A computation over the file that may throw; the file keeps whatever
    was written before the exception. *)
Definition io (A : Type) : Type := file → result A * file.

Definition ret {A} (a : A) : io A := λ f, (Ok a, f).

Definition bind {A B} (m : io A) (k : A → io B) : io B :=
  λ f, match m f with
       | (Ok a, f') => k a f'
       | (Throw, f') => (Throw, f')
       end.

Definition lift {A} (r : result A) : io A := λ f, (r, f).

Notation "'do' x <- m ; k" := (bind m (λ x, k))
  (at level 10, x name, m at level 100, k at level 200,
   format "'[v' 'do'  x  <-  m ; '/' k ']'").
Notation "'do' '_' <- m ; k" := (bind m (λ _, k))
  (at level 10, m at level 100, k at level 200,
   format "'[v' 'do'  '_'  <-  m ; '/' k ']'").

(** [try { body } catch (error) { res.status(500).json(...) }] *)
Definition try_catch (body : io response) (on_error : response)
  : file → response * file :=
  λ f, match body f with
       | (Ok r, f') => (r, f')
       | (Throw, f') => (on_error, f')
       end.

(** [ensureDataDirExists]: [fs.access] throws when the file is absent and
    the inner handler then writes [JSON.stringify([])]; an existing file
    is left as it is.  The function swallows its own exceptions. *)
Definition ensureDataDirExists : io unit :=
  λ f, match f with
       | None => (Ok tt, Some (Document (JArr [])))
       | Some _ => (Ok tt, f)
       end.

(** [fs.readFile(bookingsFile, 'utf8')] *)
Definition readFile : io content :=
  λ f, match f with
       | Some c => (Ok c, f)
       | None => (Throw, f)
       end.

Definition JSON_parse (c : content) : result json :=
  match c with
  | Malformed => Throw
  | Document v => Ok v
  end.

(** [fs.writeFile(bookingsFile, JSON.stringify(v, null, 2))] *)
Definition writeFile (v : json) : io unit :=
  λ _, (Ok tt, Some (Document v)).

(** An object literal [{ k1: v1, ..., kn: vn }], as serialised. *)
Definition literal (entries : list (string * jsval)) : object :=
  foldl (λ o e, set_prop e.1 e.2 o) ∅ entries.

(** Calling an array method on a parsed value: a TypeError unless the
    value is an array (no JSON value carries a function). *)
Definition as_array (v : json) : result (list json) :=
  match v with
  | JArr l => Ok l
  | _ => Throw
  end.

(** [l.findIndex(p)]: the first index whose element passes, [None] for
    the [-1] of JavaScript; an exception of [p] ends the search. *)
Fixpoint findIndex (p : json → result bool) (l : list json)
  : result (option nat) :=
  match l with
  | [] => Ok None
  | x :: r =>
      match p x with
      | Throw => Throw
      | Ok true => Ok (Some 0%nat)
      | Ok false =>
          match findIndex p r with
          | Ok (Some i) => Ok (Some (S i))
          | other => other
          end
      end
  end.

(** [l.find(p)]: the first element that passes, or [undefined]. *)
Fixpoint find (p : json → result bool) (l : list json) : result jsval :=
  match l with
  | [] => Ok None
  | x :: r =>
      match p x with
      | Throw => Throw
      | Ok true => Ok (Some x)
      | Ok false => find p r
      end
  end.

(** [l[i].k = v]: assignment through an index; [l[i]] out of range is
    [undefined], on which the assignment throws. *)
Definition assign_at (l : list json) (i : nat) (k : string) (v : jsval)
  : result (list json) :=
  match l !! i with
  | Some x =>
      match assign x k v with
      | Ok x' => Ok (<[i := x']> l)
      | Throw => Throw
      end
  | None => Throw
  end.

(** [booking => booking.id === id] *)
Definition has_id (id : string) (booking : json) : result bool :=
  match get booking "id" with
  | Ok v => Ok (strict_eq_str v id)
  | Throw => Throw
  end.

(** The two readings of the clock a request makes: [Date.now()], in
    milliseconds, and [new Date().toISOString()]. *)
Record clock : Type := Clock { Date_now : Z; Date_toISOString : string }.

(** ** server.js: the routes *)

(** GET /api/bookings and, behind [auth], GET /api/admin/bookings *)
Definition get_bookings : file → response * file :=
  try_catch
    (do _ <- ensureDataDirExists;
     do data <- readFile;
     do bookings <- lift (JSON_parse data);
     ret (Response 200 bookings))
    (message_response 500 "Error fetching bookings").

(** PUT /api/admin/bookings/:id, the handler behind [auth] *)
Definition put_admin_bookings_id (clk : clock) (id : string) (body : json)
  : file → response * file :=
  try_catch
    (do _ <- ensureDataDirExists;
     do status <- lift (get body "status");
     do data <- readFile;
     do parsed <- lift (JSON_parse data);
     do bookings <- lift (as_array parsed);
     do bookingIndex <- lift (findIndex (has_id id) bookings);
     match bookingIndex with
     | None => ret (message_response 404 "Booking not found")
     | Some i =>
         do bookings <- lift (assign_at bookings i "status" status);
         do bookings <- lift (assign_at bookings i "updatedAt"
                                (Some (JStr (Date_toISOString clk))));
         do _ <- writeFile (JArr bookings);
         ret (Response 200 (JObj (literal
                [ ("success", Some (JBool true));
                  ("booking", bookings !! i);
                  ("message", Some (JStr "Booking status updated successfully")) ])))
     end)
    (message_response 500 "Error updating booking").

(** The object literal of [newBooking]. *)
Definition newBooking (clk : clock)
    (fullName email phone checkIn checkOut message totalPrice : jsval)
  : object :=
  literal
    [ ("id", Some (JStr (pretty (Date_now clk))));
      ("fullName", fullName);
      ("email", email);
      ("phone", phone);
      ("checkIn", checkIn);
      ("checkOut", checkOut);
      ("message", js_or message (Some (JStr "")));
      ("totalPrice", totalPrice);
      ("status", Some (JStr "pending"));
      ("createdAt", Some (JStr (Date_toISOString clk))) ].

(** [bookings.push(x)] on the parsed document. *)
Definition push (bookings : json) (x : json) : result json :=
  match as_array bookings with
  | Ok l => Ok (JArr (l ++ [x]))
  | Throw => Throw
  end.

(** POST /api/bookings *)
Definition post_bookings (clk : clock) (body : json)
  : file → response * file :=
  try_catch
    (do _ <- ensureDataDirExists;
     do fullName <- lift (get body "fullName");
     do email <- lift (get body "email");
     do phone <- lift (get body "phone");
     do checkIn <- lift (get body "checkIn");
     do checkOut <- lift (get body "checkOut");
     do message <- lift (get body "message");
     do totalPrice <- lift (get body "totalPrice");
     if negb (truthy fullName) || negb (truthy email) || negb (truthy phone)
        || negb (truthy checkIn) || negb (truthy checkOut)
     then ret (message_response 400 "Required fields are missing")
     else
       do data <- readFile;
       do bookings <- lift (JSON_parse data);
       let newBooking :=
         newBooking clk fullName email phone checkIn checkOut message totalPrice in
       do bookings <- lift (push bookings (JObj newBooking));
       do _ <- writeFile bookings;
       ret (Response 201 (JObj (literal
              [ ("message", Some (JStr "Booking request received successfully"));
                ("booking", Some (JObj newBooking)) ]))))
    (message_response 500 "Error saving booking request").

(** GET /api/bookings/:id *)
Definition get_bookings_id (id : string) : file → response * file :=
  try_catch
    (do _ <- ensureDataDirExists;
     do data <- readFile;
     do parsed <- lift (JSON_parse data);
     do bookings <- lift (as_array parsed);
     do booking <- lift (find (has_id id) bookings);
     match booking with
     | Some b =>
         if negb (truthy booking)
         then ret (message_response 404 "Booking not found")
         else ret (Response 200 b)
     | None => ret (message_response 404 "Booking not found")
     end)
    (message_response 500 "Error retrieving booking").

(** A route registered as [app.METHOD(path, auth, handler)]: the handler
    runs, on the same request, only when [auth] calls [next()]. *)
Definition guarded (handler : file → response * file)
    (authorization : option string) : file → response * file :=
  λ f, match auth authorization with
       | Next => handler f
       | Answer r => (r, f)
       end.

Definition app_get_admin_bookings (authorization : option string)
  : file → response * file :=
  guarded get_bookings authorization.

Definition app_put_admin_bookings_id (authorization : option string)
    (clk : clock) (id : string) (body : json) : file → response * file :=
  guarded (put_admin_bookings_id clk id body) authorization.

(** ** Collections, requests and runs *)

(** The file holding the array of the booking objects [bs]. *)
Definition collection (bs : list object) : file :=
  Some (Document (JArr (JObj <$> bs))).

(** [sep] does not occur in [s]. *)
Fixpoint no_sep (sep : Ascii.ascii) (s : string) : bool :=
  match s with
  | EmptyString => true
  | String c r => negb (Ascii.eqb c sep) && no_sep sep r
  end.

(** The booking object whose [id] is the string [id]. *)
Definition id_is (id : string) (b : object) : Prop :=
  b !! "id" = Some (JStr id).

#[global] Instance id_is_dec id b : Decision (id_is id b).
Proof.
  unfold id_is. destruct (b !! "id") as [[| | |t| |]|].
  4: destruct (decide (t = id)) as [->|Hne]; [by left|right; congruence].
  all: right; congruence.
Defined.

(** The fields a create request must carry. *)
Definition required : list string :=
  ["fullName"; "email"; "phone"; "checkIn"; "checkOut"].

(** A field of the request that is present and non-empty: it holds a
    string other than [""]. *)
Definition filled (v : jsval) : bool :=
  match v with
  | Some (JStr s) => negb (String.eqb s "")
  | _ => false
  end.

(** A field of the request that is missing or empty. *)
Definition blank (v : jsval) : bool :=
  match v with
  | None => true
  | Some (JStr s) => String.eqb s ""
  | _ => false
  end.

(** The four values of the status enumeration. *)
Definition statuses : list string :=
  ["pending"; "confirmed"; "cancelled"; "completed"].

(** A [status] property that holds one of the four values. *)
Definition enumerated (v : jsval) : bool :=
  match v with
  | Some (JStr s) => bool_decide (s ∈ statuses)
  | _ => false
  end.

(** The two operations that write the store, each with the clock
    readings its request makes. *)
Inductive operation : Type :=
  | Create (clk : clock) (body : json)
  | UpdateStatus (clk : clock) (id : string) (body : json).

Definition step (f : file) (op : operation) : file :=
  match op with
  | Create clk body => (post_bookings clk body f).2
  | UpdateStatus clk id body => (put_admin_bookings_id clk id body f).2
  end.

(** The store after [ops], run in order from the empty collection. *)
Definition run (ops : list operation) : file :=
  foldl step (collection []) ops.

(** An update whose request carries one of the four status values. *)
Definition enumerated_update (op : operation) : bool :=
  match op with
  | Create _ _ => true
  | UpdateStatus _ _ body =>
      match get body "status" with
      | Ok v => enumerated v
      | Throw => false
      end
  end.

(** The matched booking after the two assignments of the update route. *)
Definition updated (clk : clock) (status : jsval) (b : object) : object :=
  set_prop "updatedAt" (Some (JStr (Date_toISOString clk)))
    (set_prop "status" status b).

(** The booking that the create route builds from the request [input]. *)
Definition created (clk : clock) (input : object) : object :=
  newBooking clk (input !! "fullName") (input !! "email") (input !! "phone")
    (input !! "checkIn") (input !! "checkOut") (input !! "message")
    (input !! "totalPrice").

(** The validation of the create route, on an object body. *)
Definition accepted (input : object) : bool :=
  forallb (λ k, truthy (input !! k)) required.

(** The elements of the array the bookings file holds. *)
Definition stored (f : file) : list json :=
  match f with
  | Some (Document (JArr l)) => l
  | _ => []
  end.

(** The [status] and the [id] of a stored element. *)
Definition status_of (x : json) : jsval :=
  match x with
  | JObj o => o !! "status"
  | _ => None
  end.

Definition id_of (x : json) : jsval :=
  match x with
  | JObj o => o !! "id"
  | _ => None
  end.

(** Sample requests: the booking of the scenario in the specification, a
    second guest, and two clock readings. *)
Definition jane : object :=
  list_to_map
    [ ("fullName", JStr "Jane Doe"); ("email", JStr "jane@x.com");
      ("phone", JStr "5551234567"); ("checkIn", JStr "2025-06-01");
      ("checkOut", JStr "2025-06-03") ].

Definition john : object :=
  list_to_map
    [ ("fullName", JStr "John Roe"); ("email", JStr "john@x.com");
      ("phone", JStr "5557654321"); ("checkIn", JStr "2025-07-10");
      ("checkOut", JStr "2025-07-12"); ("totalPrice", JNum 398) ].

Definition noon : clock :=
  Clock 1748779200000 "2025-06-01T12:00:00.000Z".

Definition later : clock :=
  Clock 1748782800000 "2025-06-01T13:00:00.000Z".

(** A request body with the given properties. *)
Definition body_of (entries : list (string * json)) : json :=
  JObj (list_to_map entries).

(** A create followed by an update that carries a status outside the
    enumeration. *)
Definition bogus_run : list operation :=
  [ Create noon (JObj jane);
    UpdateStatus later "1748779200000" (body_of [("status", JStr "bogus")]) ].

(** Two creates handled within the same millisecond. *)
Definition twin_run : list operation :=
  [ Create noon (JObj jane); Create noon (JObj john) ].

(** The [Date.now()] readings of the creates of a run, in order. *)
Definition create_times (ops : list operation) : list Z :=
  omap (λ op, match op with
              | Create clk _ => Some (Date_now clk)
              | UpdateStatus _ _ _ => None
              end) ops.

(** Every stored booking has an enumerated status. *)
Definition statuses_enumerated (f : file) : Prop :=
  Forall (λ x, enumerated (status_of x) = true) (stored f).

(** The ids of the stored bookings are pairwise distinct. *)
Definition ids_distinct (f : file) : Prop :=
  NoDup (id_of <$> stored f).

(** The status invariant of the data model: it holds in every state a
    run of creates and updates reaches from the empty collection. *)
Definition status_always_enumerated : Prop :=
  ∀ ops, statuses_enumerated (run ops).

(** ** The login route and the dashboard that calls the admin routes *)

(** POST /api/admin/login.  The handler has no [try]: an exception of the
    destructuring of [req.body] is left to the error handler of Express,
    which is [Throw] here. *)
Definition post_admin_login (body : json) : result response :=
  match get body "password" with
  | Throw => Throw
  | Ok password =>
      if strict_eq_str password "Password1"
      then Ok (Response 200 (JObj (literal
                 [ ("success", Some (JBool true));
                   ("token", Some (JStr "Password1"));
                   ("message", Some (JStr "Login successful")) ])))
      else Ok (Response 401 (JObj (literal
                 [ ("success", Some (JBool false));
                   ("message", Some (JStr "Invalid credentials")) ])))
  end.

(** Dashboard.jsx: the header its requests carry, [`Bearer ${token}`]. *)
Definition authorization_header (token : string) : string :=
  "Bearer " +:+ token.

(** Dashboard.jsx, [handleUpdateStatus]: the body of the PUT request,
    [{ status: newStatus }]. *)
Definition status_body (newStatus : string) : json :=
  JObj (literal [ ("status", Some (JStr newStatus)) ]).

(** Dashboard.jsx, [handleUpdateStatus]: the local list after the request
    succeeded, [prevBookings.map(booking => booking.id === bookingId ?
    {...booking, status: newStatus, updatedAt: iso} : booking)], where
    [iso] is the dashboard's own [new Date().toISOString()]. *)
Definition handleUpdateStatus_local (bookingId newStatus iso : string)
    (prevBookings : list object) : list object :=
  (λ booking : object,
     if strict_eq_str (booking !! "id") bookingId
     then literal [ ("status", Some (JStr newStatus));
                    ("updatedAt", Some (JStr iso)) ] ∪ booking
     else booking) <$> prevBookings.

(** Dashboard.jsx: the status values of the action buttons a row shows,
    in the order Confirm, Cancel, Complete. *)
Definition actions (status : jsval) : list string :=
  (if negb (strict_eq_str status "confirmed") then ["confirmed"] else [])
  ++ (if negb (strict_eq_str status "cancelled") then ["cancelled"] else [])
  ++ (if strict_eq_str status "confirmed"
         && negb (strict_eq_str status "completed")
      then ["completed"] else []).

(** Dashboard.jsx, [getStatusBadgeClass]. *)
Definition getStatusBadgeClass (status : jsval) : string :=
  if strict_eq_str status "pending" then "bg-yellow-100 text-yellow-800"
  else if strict_eq_str status "confirmed" then "bg-green-100 text-green-800"
  else if strict_eq_str status "cancelled" then "bg-red-100 text-red-800"
  else if strict_eq_str status "completed" then "bg-blue-100 text-blue-800"
  else "bg-gray-100 text-gray-800".

(** ** Further vocabulary *)

(** The property [k] of a stored element. *)
Definition prop_of (x : json) (k : string) : jsval :=
  match x with
  | JObj o => o !! k
  | _ => None
  end.


(** Content of the bookings file that the routes cannot use as the list:
    text that does not parse, or a document that is not an array. *)
Definition unusable (c : content) : bool :=
  match c with
  | Malformed => true
  | Document (JArr _) => false
  | Document _ => true
  end.

(** The bookings an update leaves in the store: the first one carrying the
    id is replaced, or nothing is when no booking carries it. *)
Definition after_update (clk : clock) (id : string) (input : object)
    (bs : list object) : list object :=
  match list_find (id_is id) bs with
  | Some (i, b) => <[i := updated clk (input !! "status") b]> bs
  | None => bs
  end.

(** A create that passes the validation. *)
Definition accepted_create (op : operation) : bool :=
  match op with
  | Create _ (JObj input) => accepted input
  | _ => false
  end.

(** The ids that the accepted creates of a run generate, in order. *)
Definition ids_issued (ops : list operation) : list jsval :=
  (λ t, Some (JStr (pretty t))) <$> create_times (filter accepted_create ops).

(** ** The guard *)

Example split_bearer : split " "%char "Bearer Password1" = ["Bearer"; "Password1"].
Proof. reflexivity. Qed.

Example split_edges :
  split " "%char "" = [""] ∧ split " "%char " a" = [""; "a"]
  ∧ split " "%char "a  b " = ["a"; ""; "b"; ""].
Proof. repeat split; reflexivity. Qed.

Lemma split_aux_no_sep sep w :
  no_sep sep w = true → split_aux sep w = (w, []).
Proof.
  induction w as [|c w IH]; cbn [no_sep split_aux]; [done|].
  intros [Hc Hw]%andb_prop. rewrite (IH Hw).
  by destruct (Ascii.eqb c sep).
Qed.

Lemma split_aux_app sep w r :
  no_sep sep w = true →
  split_aux sep (w +:+ String sep r) = (w, split sep r).
Proof.
  induction w as [|c w IH]; simpl.
  - intros _. unfold split. destruct (split_aux sep r).
    by rewrite Ascii.eqb_refl.
  - intros [Hc Hw]%andb_prop. rewrite (IH Hw).
    by destruct (Ascii.eqb c sep).
Qed.

Lemma split_no_sep sep w : no_sep sep w = true → split sep w = [w].
Proof. intros H. unfold split. by rewrite split_aux_no_sep. Qed.

Lemma split_app sep w r :
  no_sep sep w = true → split sep (w +:+ String sep r) = w :: split sep r.
Proof. intros H. unfold split at 1. by rewrite split_aux_app. Qed.

(** The second piece of a header [scheme token rest], where [rest] is
    empty or begins a further piece. *)
Lemma split_second sep scheme token rest :
  no_sep sep scheme = true → no_sep sep token = true →
  (rest = "" ∨ ∃ r, rest = String sep r) →
  split sep (scheme +:+ String sep (token +:+ rest)) !! 1%nat = Some token.
Proof.
  intros Hs Ht Hr. rewrite split_app by done.
  destruct Hr as [->|[r ->]].
  - assert (token +:+ "" = token) as ->.
    { clear. induction token as [|c t IH]; [done|].
      change (String c (t +:+ "") = String c t). by rewrite IH. }
    rewrite split_no_sep; done.
  - rewrite split_app; done.
Qed.

Lemma split_aux_inv sep s t ts :
  split_aux sep s = (t, ts) →
  no_sep sep t = true
  ∧ match ts with
    | [] => s = t
    | t' :: ts' => ∃ r, s = t +:+ String sep r ∧ split_aux sep r = (t', ts')
    end.
Proof.
  revert t ts. induction s as [|c s IH]; intros t ts; simpl.
  - by intros [= <- <-].
  - destruct (split_aux sep s) as [u us] eqn:Hs.
    destruct (IH u us eq_refl) as [Hu Hrest].
    destruct (Ascii.eqb c sep) eqn:Hc.
    + intros [= <- <-]. split; [done|].
      apply Ascii.eqb_eq in Hc as ->. by exists s.
    + intros [= <- <-]. split; [by simpl; rewrite Hc|].
      destruct us as [|u' us'].
      * by rewrite Hrest.
      * destruct Hrest as (r & -> & Hr). by exists r.
Qed.

(** Conversely, a header whose second piece is [token] has that shape. *)
Lemma split_second_inv sep h token :
  split sep h !! 1%nat = Some token →
  ∃ scheme rest,
    no_sep sep scheme = true ∧ no_sep sep token = true
    ∧ (rest = "" ∨ ∃ r, rest = String sep r)
    ∧ h = scheme +:+ String sep (token +:+ rest).
Proof.
  unfold split. destruct (split_aux sep h) as [scheme ts] eqn:Hh.
  destruct ts as [|t ts]; [done|]. intros [= ->].
  destruct (split_aux_inv _ _ _ _ Hh) as (Hscheme & r & -> & Hr).
  destruct (split_aux_inv _ _ _ _ Hr) as (Htoken & Hts).
  exists scheme. destruct ts as [|t' ts'].
  - exists "". subst r.
    split; [done|]. split; [done|]. split; [by left|].
    f_equal. f_equal. clear. induction token as [|c t IH]; [done|].
    change (String c t = String c (t +:+ "")). by rewrite <- IH.
  - destruct Hts as (r' & -> & _). exists (String sep r').
    split; [done|]. split; [done|]. split; [right; by exists r'|done].
Qed.

(** C2. A guarded admin route has exactly three outcomes.  Without an
    Authorization header the guard answers 401 and the handler does not
    run; with a header whose second space-separated piece differs from
    the secret (or is missing) it answers 403; with a header whose second
    piece is the secret the handler runs on the same request and state.
    The three cases exclude each other and the three verdicts differ. *)
Theorem guard_three_outcomes (handler : file → response * file)
    (authorization : option string) (f : file) :
  ((authorization = None
      ∧ auth authorization = Answer unauthorized
      ∧ guarded handler authorization f = (unauthorized, f))
   ∨ (∃ h, authorization = Some h
      ∧ split " "%char h !! 1%nat ≠ Some secret
      ∧ auth authorization = Answer forbidden
      ∧ guarded handler authorization f = (forbidden, f))
   ∨ (∃ h, authorization = Some h
      ∧ split " "%char h !! 1%nat = Some secret
      ∧ auth authorization = Next
      ∧ guarded handler authorization f = handler f))
  ∧ code unauthorized = 401%nat ∧ code forbidden = 403%nat
  ∧ Answer unauthorized ≠ Answer forbidden
  ∧ Answer unauthorized ≠ Next ∧ Answer forbidden ≠ Next.
Proof.
  split; [|by repeat split].
  unfold guarded. destruct authorization as [h|]; [right|by left].
  unfold auth. case_bool_decide as Htok.
  - right. by exists h.
  - left. by exists h.
Qed.

(** C10. The guard never looks at the scheme word: whatever the first
    piece of the header is, and whether or not further pieces follow the
    second, a header whose second piece is the secret passes, so
    [NotBearer Password1] and [Bearer Password1 extra] are accepted like
    [Bearer Password1]. *)
Theorem guard_ignores_scheme (handler : file → response * file)
    (scheme : string) (f : file) :
  no_sep " " scheme = true →
  (auth (Some (scheme +:+ " " +:+ secret)) = Next
   ∧ guarded handler (Some (scheme +:+ " " +:+ secret)) f = handler f)
  ∧ (∀ extra,
       auth (Some (scheme +:+ " " +:+ secret +:+ " " +:+ extra)) = Next
       ∧ guarded handler
           (Some (scheme +:+ " " +:+ secret +:+ " " +:+ extra)) f
         = handler f)
  ∧ auth (Some "NotBearer Password1") = auth (Some "Bearer Password1")
  ∧ auth (Some "Bearer Password1 extra") = auth (Some "Bearer Password1").
Proof.
  intros Hs.
  assert (∀ rest, (rest = "" ∨ ∃ r, rest = String " " r) →
            auth (Some (scheme +:+ String " " (secret +:+ rest))) = Next)
    as Hpass.
  { intros rest Hrest. unfold auth.
    rewrite (split_second " " scheme secret rest Hs eq_refl Hrest).
    by rewrite bool_decide_eq_true_2. }
  split; [|split; [intros extra|done]].
  - assert (auth (Some (scheme +:+ " " +:+ secret)) = Next) as Ha.
    { apply (Hpass ""). by left. }
    split; [done|]. unfold guarded. by rewrite Ha.
  - assert (auth (Some (scheme +:+ " " +:+ secret +:+ " " +:+ extra)) = Next)
      as Ha.
    { apply (Hpass (String " " extra)). right. by exists extra. }
    split; [done|]. unfold guarded. by rewrite Ha.
Qed.

Lemma guard_ignores_scheme_witness :
  no_sep " " "NotBearer" = true
  ∧ auth (Some ("NotBearer" +:+ " " +:+ secret)) = Next.
Proof.
  split; [reflexivity|].
  apply (guard_ignores_scheme get_bookings "NotBearer" None). reflexivity.
Defined.

(** The two admin routes without a header, and with a wrong token. *)
Example admin_routes_closed clk id body f :
  app_get_admin_bookings None f = (unauthorized, f)
  ∧ app_put_admin_bookings_id None clk id body f = (unauthorized, f)
  ∧ app_get_admin_bookings (Some "Bearer wrong") f = (forbidden, f)
  ∧ app_put_admin_bookings_id (Some "Bearer wrong") clk id body f
    = (forbidden, f).
Proof. done. Qed.

Example admin_routes_open clk id body f :
  app_get_admin_bookings (Some "Bearer Password1") f = get_bookings f
  ∧ app_put_admin_bookings_id (Some "Bearer Password1") clk id body f
    = put_admin_bookings_id clk id body f.
Proof. done. Qed.

(** ** Searching a collection *)

Lemma strict_eq_str_spec v s : strict_eq_str v s = true ↔ v = Some (JStr s).
Proof.
  destruct v as [[| | |t| |]|]; simpl; try (split; [done|congruence]).
  rewrite bool_decide_eq_true. split; congruence.
Qed.

Lemma has_id_object id b :
  has_id id (JObj b) = Ok (bool_decide (id_is id b)).
Proof.
  unfold has_id, id_is; simpl. f_equal.
  destruct (strict_eq_str (b !! "id") id) eqn:E.
  - apply strict_eq_str_spec in E. by rewrite bool_decide_eq_true_2.
  - rewrite bool_decide_eq_false_2; [done|].
    intros H%strict_eq_str_spec. congruence.
Qed.

(** On a collection the search of the update route never throws and
    returns the first index whose booking carries the id. *)
Lemma findIndex_collection id (bs : list object) :
  findIndex (has_id id) (JObj <$> bs) = Ok (fst <$> list_find (id_is id) bs).
Proof.
  induction bs as [|b bs IH]; [done|].
  cbn [fmap list_fmap findIndex list_find]. rewrite has_id_object.
  fold (fmap (M:=list) JObj bs). rewrite IH.
  case_bool_decide as Hb; rewrite ?decide_True, ?decide_False by done; [done|].
  by destruct (list_find (id_is id) bs) as [[i x]|].
Qed.

Lemma find_collection id (bs : list object) :
  find (has_id id) (JObj <$> bs)
  = Ok ((λ ix, JObj ix.2) <$> list_find (id_is id) bs).
Proof.
  induction bs as [|b bs IH]; [done|].
  cbn [fmap list_fmap find list_find]. rewrite has_id_object.
  fold (fmap (M:=list) JObj bs). rewrite IH.
  case_bool_decide as Hb; rewrite ?decide_True, ?decide_False by done; [done|].
  by destruct (list_find (id_is id) bs) as [[i x]|].
Qed.

(** ** The routes on a collection *)

Lemma put_found clk id body status (bs : list object) i b :
  get body "status" = Ok status →
  list_find (id_is id) bs = Some (i, b) →
  put_admin_bookings_id clk id body (collection bs)
  = (Response 200 (JObj (literal
       [ ("success", Some (JBool true));
         ("booking", Some (JObj (updated clk status b)));
         ("message", Some (JStr "Booking status updated successfully")) ])),
     collection (<[i := updated clk status b]> bs)).
Proof.
  intros Hst Hfind.
  pose proof (proj1 (list_find_Some _ _ _ _) Hfind) as (Hi & _ & _).
  assert (i < length bs)%nat as Hlt by (by eapply lookup_lt_Some).
  unfold put_admin_bookings_id, try_catch, bind, lift, ret, collection.
  cbn [ensureDataDirExists readFile JSON_parse as_array writeFile].
  rewrite Hst, findIndex_collection, Hfind. cbn [fmap option_fmap option_map fst].
  unfold assign_at.
  rewrite list_lookup_fmap, Hi. cbn [fmap option_fmap option_map assign].
  rewrite list_lookup_insert_eq by (by rewrite length_fmap).
  cbn [assign]. rewrite list_insert_insert_eq.
  rewrite list_lookup_insert_eq by (by rewrite length_fmap).
  by rewrite list_fmap_insert.
Qed.

Lemma put_missing clk id body status (bs : list object) :
  get body "status" = Ok status →
  list_find (id_is id) bs = None →
  put_admin_bookings_id clk id body (collection bs)
  = (message_response 404 "Booking not found", collection bs).
Proof.
  intros Hst Hfind.
  unfold put_admin_bookings_id, try_catch, bind, lift, ret, collection.
  cbn [ensureDataDirExists readFile JSON_parse as_array writeFile].
  by rewrite Hst, findIndex_collection, Hfind.
Qed.

Lemma put_throws clk id body (bs : list object) :
  get body "status" = Throw →
  put_admin_bookings_id clk id body (collection bs)
  = (message_response 500 "Error updating booking", collection bs).
Proof.
  intros Hst.
  unfold put_admin_bookings_id, try_catch, bind, lift, ret, collection.
  cbn [ensureDataDirExists]. by rewrite Hst.
Qed.

Lemma post_object clk input (bs : list object) :
  post_bookings clk (JObj input) (collection bs)
  = if accepted input
    then (Response 201 (JObj (literal
            [ ("message", Some (JStr "Booking request received successfully"));
              ("booking", Some (JObj (created clk input))) ])),
          collection (bs ++ [created clk input]))
    else (message_response 400 "Required fields are missing", collection bs).
Proof.
  unfold post_bookings, try_catch, bind, lift, ret, collection, accepted.
  cbn [ensureDataDirExists get forallb required].
  rewrite andb_true_r, <- !negb_andb, !andb_assoc.
  destruct (truthy (input !! "fullName") && truthy (input !! "email")
            && truthy (input !! "phone") && truthy (input !! "checkIn")
            && truthy (input !! "checkOut")); cbn [negb]; [|done].
  cbn [readFile JSON_parse push as_array writeFile].
  by rewrite fmap_app.
Qed.

Lemma post_not_object clk body (bs : list object) :
  (∀ input, body ≠ JObj input) →
  (post_bookings clk body (collection bs)).2 = collection bs.
Proof.
  intros Hbody. destruct body; try done. by destruct (Hbody o).
Qed.

(** The validation precedes the read of the file. *)
Lemma post_rejected clk input (f : file) :
  accepted input = false →
  post_bookings clk (JObj input) f
  = (message_response 400 "Required fields are missing",
     (ensureDataDirExists f).2).
Proof.
  unfold post_bookings, try_catch, bind, lift, ret, accepted.
  cbn [get forallb required].
  rewrite andb_true_r, <- !negb_andb, !andb_assoc. intros ->.
  by destruct f.
Qed.

(** A file that does not parse is answered 500 by the routes that read
    it, and stays as it is. *)
Lemma post_unreadable clk input :
  accepted input = true →
  post_bookings clk (JObj input) (Some Malformed)
  = (message_response 500 "Error saving booking request", Some Malformed).
Proof.
  unfold post_bookings, try_catch, bind, lift, ret, accepted.
  cbn [get forallb required ensureDataDirExists].
  rewrite andb_true_r, <- !negb_andb, !andb_assoc. by intros ->.
Qed.

Lemma get_found id (bs : list object) i b :
  list_find (id_is id) bs = Some (i, b) →
  get_bookings_id id (collection bs) = (Response 200 (JObj b), collection bs).
Proof.
  intros Hfind.
  unfold get_bookings_id, try_catch, bind, lift, ret, collection.
  cbn [ensureDataDirExists readFile JSON_parse as_array].
  by rewrite find_collection, Hfind.
Qed.

Lemma get_missing id (bs : list object) :
  list_find (id_is id) bs = None →
  get_bookings_id id (collection bs)
  = (message_response 404 "Booking not found", collection bs).
Proof.
  intros Hfind.
  unfold get_bookings_id, try_catch, bind, lift, ret, collection.
  cbn [ensureDataDirExists readFile JSON_parse as_array].
  by rewrite find_collection, Hfind.
Qed.

(** ** Properties of the objects the routes build *)

Lemma lookup_set_prop_eq k v (o : object) : set_prop k v o !! k = v.
Proof.
  destruct v; simpl; [apply lookup_insert_eq|apply lookup_delete_eq].
Qed.

Lemma lookup_set_prop_ne k k' v (o : object) :
  k ≠ k' → set_prop k v o !! k' = o !! k'.
Proof.
  intros Hne. destruct v; simpl;
    [by apply lookup_insert_ne|by apply lookup_delete_ne].
Qed.

(** Lookups through the assignments of a literal or of an update. *)
Ltac lookup_props :=
  repeat (rewrite lookup_set_prop_eq
          || rewrite lookup_set_prop_ne by discriminate).

Lemma created_status clk input :
  created clk input !! "status" = Some (JStr "pending").
Proof. unfold created, newBooking, literal. cbn [foldl fst snd]. by lookup_props. Qed.

Lemma created_createdAt clk input :
  created clk input !! "createdAt" = Some (JStr (Date_toISOString clk)).
Proof. unfold created, newBooking, literal. cbn [foldl fst snd]. by lookup_props. Qed.

Lemma created_id clk input :
  created clk input !! "id" = Some (JStr (pretty (Date_now clk))).
Proof. unfold created, newBooking, literal. cbn [foldl fst snd]. by lookup_props. Qed.

Lemma created_message clk input :
  created clk input !! "message"
  = js_or (input !! "message") (Some (JStr "")).
Proof. unfold created, newBooking, literal. cbn [foldl fst snd]. by lookup_props. Qed.

(** The fields the create route copies from the request. *)
Lemma created_copied clk input k :
  k ∈ required ∨ k = "totalPrice" →
  created clk input !! k = input !! k.
Proof.
  intros Hk. unfold created, newBooking, literal. cbn [foldl fst snd].
  assert (k = "fullName" ∨ k = "email" ∨ k = "phone" ∨ k = "checkIn"
          ∨ k = "checkOut" ∨ k = "totalPrice") as Hcases.
  { destruct Hk as [Hk| ->]; [|tauto]. unfold required in Hk.
    repeat (apply elem_of_cons in Hk as [->|Hk]; [tauto|]).
    by apply elem_of_nil in Hk. }
  destruct Hcases as [->|[->|[->|[->|[->| ->]]]]]; by lookup_props.
Qed.

Lemma updated_status clk status b :
  updated clk status b !! "status" = status.
Proof. unfold updated. by lookup_props. Qed.

Lemma updated_updatedAt clk status b :
  updated clk status b !! "updatedAt" = Some (JStr (Date_toISOString clk)).
Proof. unfold updated. by lookup_props. Qed.

Lemma updated_other clk status b k :
  k ≠ "status" → k ≠ "updatedAt" → updated clk status b !! k = b !! k.
Proof.
  intros H1 H2. unfold updated.
  by rewrite !lookup_set_prop_ne.
Qed.

Lemma filled_truthy v : filled v = true → truthy v = true.
Proof. by destruct v as [[| | |s| |]|]. Qed.

Lemma blank_not_truthy v : blank v = true → truthy v = false.
Proof.
  destruct v as [[| | |s| |]|]; simpl; try done. by intros ->.
Qed.

Lemma filled_accepted input :
  forallb (λ k, filled (input !! k)) required = true → accepted input = true.
Proof.
  unfold accepted. rewrite !forallb_forall.
  intros H k Hk. apply filled_truthy. by apply H.
Qed.

Lemma blank_rejected input :
  existsb (λ k, blank (input !! k)) required = true → accepted input = false.
Proof.
  unfold accepted. rewrite existsb_exists. intros (k & Hk & Hb).
  apply not_true_is_false. rewrite forallb_forall. intros H.
  specialize (H k Hk). apply blank_not_truthy in Hb. congruence.
Qed.

(** ** Creating a booking *)

(** C1. A create request whose fullName, email, phone, checkIn and
    checkOut are all present and non-empty is answered 201 with the
    created record, and that record is the one appended to the stored
    collection.  Its status is [pending], its createdAt is the time of
    creation, it carries the request's fields, and its message is the
    empty string when the request has none. *)
Theorem create_valid (clk : clock) (input : object) (bs : list object) :
  forallb (λ k, filled (input !! k)) required = true →
  ∃ b : object,
    post_bookings clk (JObj input) (collection bs)
    = (Response 201 (JObj (literal
         [ ("message", Some (JStr "Booking request received successfully"));
           ("booking", Some (JObj b)) ])),
       collection (bs ++ [b]))
    ∧ b !! "status" = Some (JStr "pending")
    ∧ b !! "createdAt" = Some (JStr (Date_toISOString clk))
    ∧ (input !! "message" = None → b !! "message" = Some (JStr ""))
    ∧ (∀ k, k ∈ required → b !! k = input !! k).
Proof.
  intros Hfilled. exists (created clk input).
  rewrite post_object, (filled_accepted _ Hfilled).
  split; [done|]. split; [apply created_status|].
  split; [apply created_createdAt|]. split.
  - intros Hmsg. by rewrite created_message, Hmsg.
  - intros k Hk. apply created_copied. by left.
Qed.

(** C8. A create request in which a required field is missing or empty
    is answered 400 whatever the bookings file holds, and the stored
    collection is the same afterwards: an existing file is not written
    at all, and an absent one is only initialised to the empty array. *)
Theorem create_invalid (clk : clock) (input : object) (f : file) :
  existsb (λ k, blank (input !! k)) required = true →
  (post_bookings clk (JObj input) f).1
  = message_response 400 "Required fields are missing"
  ∧ stored (post_bookings clk (JObj input) f).2 = stored f
  ∧ (is_Some f → (post_bookings clk (JObj input) f).2 = f)
  ∧ (∀ bs, f = collection bs →
       (post_bookings clk (JObj input) f).2 = collection bs).
Proof.
  intros Hblank. apply blank_rejected in Hblank.
  rewrite (post_rejected clk input f Hblank). cbn [fst snd].
  split; [done|]. destruct f as [c|]; cbn [ensureDataDirExists snd].
  - split; [done|]. split; [done|]. by intros bs <-.
  - split; [done|]. split; [by intros [? [=]]|]. by intros bs [=].
Qed.

(** ** Updating a status *)

(** C3. On a collection that holds the id, the update changes nothing but
    the status and updatedAt properties of the matched booking (the first
    one carrying the id): its other properties, the other bookings and the
    length of the collection are as before. *)
Theorem update_frame (clk : clock) (id : string) (input : object)
    (bs : list object) :
  Exists (id_is id) bs →
  ∃ (i : nat) (b b' : object),
    list_find (id_is id) bs = Some (i, b)
    ∧ (put_admin_bookings_id clk id (JObj input) (collection bs)).2
      = collection (<[i := b']> bs)
    ∧ <[i := b']> bs !! i = Some b'
    ∧ (∀ k, k ≠ "status" → k ≠ "updatedAt" → b' !! k = b !! k)
    ∧ (∀ j, j ≠ i → <[i := b']> bs !! j = bs !! j)
    ∧ length (<[i := b']> bs) = length bs.
Proof.
  intros Hex.
  destruct (list_find (id_is id) bs) as [[i b]|] eqn:Hfind.
  2: { apply list_find_None in Hfind. apply Exists_exists in Hex as (b & Hb & Hid).
       rewrite Forall_forall in Hfind. by destruct (Hfind b Hb). }
  exists i, b, (updated clk (input !! "status") b).
  pose proof (proj1 (list_find_Some _ _ _ _) Hfind) as (Hi & _ & _).
  split; [done|]. split.
  { by rewrite (put_found clk id (JObj input) (input !! "status") bs i b). }
  split.
  { apply list_lookup_insert_eq. by eapply lookup_lt_Some. }
  split; [intros k; apply updated_other|].
  split; [intros j Hj; by apply list_lookup_insert_ne|apply length_insert].
Qed.

(** C4. On a collection that does not hold the id, the update is answered
    404 and the stored collection is the same afterwards. *)
Theorem update_unknown (clk : clock) (id : string) (input : object)
    (bs : list object) :
  Forall (λ b, ¬ id_is id b) bs →
  put_admin_bookings_id clk id (JObj input) (collection bs)
  = (message_response 404 "Booking not found", collection bs).
Proof.
  intros Hnone. apply (put_missing clk id _ (input !! "status")); [done|].
  by apply list_find_None.
Qed.

(** C7. On a collection that holds the id, the update succeeds for every
    string whatsoever, inside or outside the enumeration, and stores it
    as the status of the matched booking. *)
Theorem update_any_string (clk : clock) (id : string) (input : object)
    (s : string) (bs : list object) :
  input !! "status" = Some (JStr s) →
  Exists (id_is id) bs →
  ∃ (i : nat) (b b' : object),
    list_find (id_is id) bs = Some (i, b)
    ∧ put_admin_bookings_id clk id (JObj input) (collection bs)
      = (Response 200 (JObj (literal
           [ ("success", Some (JBool true));
             ("booking", Some (JObj b'));
             ("message", Some (JStr "Booking status updated successfully")) ])),
         collection (<[i := b']> bs))
    ∧ <[i := b']> bs !! i = Some b'
    ∧ b' !! "status" = Some (JStr s).
Proof.
  intros Hs Hex.
  destruct (list_find (id_is id) bs) as [[i b]|] eqn:Hfind.
  2: { apply list_find_None in Hfind. apply Exists_exists in Hex as (b & Hb & Hid).
       rewrite Forall_forall in Hfind. by destruct (Hfind b Hb). }
  exists i, b, (updated clk (Some (JStr s)) b).
  pose proof (proj1 (list_find_Some _ _ _ _) Hfind) as (Hi & _ & _).
  split; [done|]. split.
  { apply put_found; [simpl; by rewrite Hs|done]. }
  split; [|apply updated_status].
  apply list_lookup_insert_eq. by eapply lookup_lt_Some.
Qed.

(** ** The status enumeration along a run *)

(** The states a run from the empty collection reaches are collections. *)
Lemma step_collection (bs : list object) op :
  step (collection bs) op = collection bs
  ∨ (∃ clk input, op = Create clk (JObj input) ∧ accepted input = true
       ∧ step (collection bs) op = collection (bs ++ [created clk input]))
  ∨ (∃ clk id body status i b, op = UpdateStatus clk id body
       ∧ get body "status" = Ok status
       ∧ list_find (id_is id) bs = Some (i, b)
       ∧ step (collection bs) op
         = collection (<[i := updated clk status b]> bs)).
Proof.
  destruct op as [clk body|clk id body]; cbn [step].
  - destruct body as [| | | | |input];
      try (left; by apply post_not_object).
    rewrite post_object. destruct (accepted input) eqn:Hacc; [|by left].
    right; left. by exists clk, input.
  - destruct (get body "status") as [status|] eqn:Hst.
    + destruct (list_find (id_is id) bs) as [[i b]|] eqn:Hfind.
      * right; right. exists clk, id, body, status, i, b.
        by rewrite (put_found clk id body status bs i b).
      * left. by rewrite (put_missing clk id body status).
    + left. by rewrite put_throws.
Qed.

Lemma stored_collection (bs : list object) :
  stored (collection bs) = JObj <$> bs.
Proof. done. Qed.

Lemma step_enumerated (bs : list object) op :
  enumerated_update op = true →
  Forall (λ b : object, enumerated (b !! "status") = true) bs →
  ∃ bs' : list object,
    step (collection bs) op = collection bs'
    ∧ Forall (λ b : object, enumerated (b !! "status") = true) bs'.
Proof.
  intros Hop Hbs.
  destruct (step_collection bs op)
    as [->|[(clk & input & -> & _ & ->)
           |(clk & id & body & status & i & b & -> & Hst & Hfind & ->)]].
  - by exists bs.
  - eexists; split; [done|]. apply Forall_app; split; [done|].
    apply Forall_singleton. by rewrite created_status.
  - eexists; split; [done|]. apply Forall_insert; [done|].
    rewrite updated_status. cbn [enumerated_update] in Hop.
    by rewrite Hst in Hop.
Qed.

(** C5, as stated, fails: after a create and an update carrying
    [bogus], the stored booking has the status [bogus]. *)
Lemma status_not_always_enumerated : ¬ status_always_enumerated.
Proof.
  intros H. specialize (H bogus_run). unfold statuses_enumerated in H.
  assert (forallb (λ x, enumerated (status_of x)) (stored (run bogus_run))
          = true) as Hall.
  { apply forallb_forall. intros x Hx%list_elem_of_In.
    by apply (proj1 (Forall_forall _ _) H). }
  vm_compute in Hall. discriminate Hall.
Qed.

(** C5, amended.  Along every run from the empty collection in which each
    update carries one of the four values, every stored booking has one
    of the four values as its status. *)
Theorem status_enumerated_when_updates_are (ops : list operation) :
  forallb enumerated_update ops = true →
  statuses_enumerated (run ops).
Proof.
  intros Hops. unfold statuses_enumerated, run.
  assert (∃ bs : list object,
            foldl step (collection []) ops = collection bs
            ∧ Forall (λ b : object, enumerated (b !! "status") = true) bs)
    as (bs & -> & Hbs).
  { assert (Forall (λ b : object, enumerated (b !! "status") = true) [])
      as Hnil by constructor.
    revert Hnil Hops. generalize (@nil object) as bs.
    induction ops as [|op ops IH]; intros bs Hbs Hops; cbn [foldl].
    - by exists bs.
    - cbn [forallb] in Hops. apply andb_prop in Hops as [Hop Hops].
      destruct (step_enumerated bs op Hop Hbs) as (bs' & -> & Hbs').
      by apply IH. }
  rewrite stored_collection. by apply Forall_fmap.
Qed.

Lemma status_enumerated_when_updates_are_witness :
  forallb enumerated_update
    [ Create noon (JObj jane);
      UpdateStatus later "1748779200000"
        (body_of [("status", JStr "confirmed")]) ] = true
  ∧ statuses_enumerated
      (run [ Create noon (JObj jane);
             UpdateStatus later "1748779200000"
               (body_of [("status", JStr "confirmed")]) ]).
Proof.
  split; [reflexivity|].
  apply status_enumerated_when_updates_are. reflexivity.
Defined.

(** ** Ids along a run *)

(** C6, at two creates handled within one millisecond: both are answered
    201, both bookings are stored, and the two carry the same id, so the
    ids of the store are not pairwise distinct. *)
Theorem twin_creates_share_id :
  code (post_bookings noon (JObj jane) (collection [])).1 = 201%nat
  ∧ code (post_bookings noon (JObj john)
            (run [Create noon (JObj jane)])).1 = 201%nat
  ∧ id_of <$> stored (run twin_run)
    = [Some (JStr "1748779200000"); Some (JStr "1748779200000")]
  ∧ ¬ ids_distinct (run twin_run).
Proof.
  assert (id_of <$> stored (run twin_run)
          = [Some (JStr "1748779200000"); Some (JStr "1748779200000")])
    as Hids by (vm_compute; reflexivity).
  split; [vm_compute; reflexivity|].
  split; [vm_compute; reflexivity|].
  split; [done|].
  unfold ids_distinct. rewrite Hids. intros Hnd.
  apply NoDup_cons in Hnd as [Hnotin _]. apply Hnotin, list_elem_of_here.
Qed.

(** The id of a created booking is a function of [Date.now()] alone. *)
Lemma created_id_same_time clk1 clk2 input1 input2 :
  Date_now clk1 = Date_now clk2 →
  created clk1 input1 !! "id" = created clk2 input2 !! "id".
Proof. intros Heq. by rewrite !created_id, Heq. Qed.

Lemma updated_id clk status b : updated clk status b !! "id" = b !! "id".
Proof. by apply updated_other. Qed.

Lemma run_snoc ops op : run (ops ++ [op]) = step (run ops) op.
Proof. unfold run. by rewrite foldl_app. Qed.

Lemma create_times_snoc ops op :
  create_times (ops ++ [op]) = create_times ops ++ create_times [op].
Proof. unfold create_times. by rewrite omap_app. Qed.

(** The stored ids are the renderings of the clock readings of the
    creates that were accepted. *)
Lemma run_ids ops :
  ∃ (bs : list object) (ts : list Z),
    run ops = collection bs
    ∧ ts `sublist_of` create_times ops
    ∧ (λ b : object, b !! "id") <$> bs = (λ t, Some (JStr (pretty t))) <$> ts.
Proof.
  induction ops as [|op ops IH] using rev_ind.
  - by exists [], [].
  - destruct IH as (bs & ts & Hrun & Hsub & Hids).
    rewrite run_snoc, create_times_snoc, Hrun.
    destruct (step_collection bs op)
      as [->|[(clk & input & -> & _ & ->)
             |(clk & id & body & status & i & b & -> & Hst & Hfind & ->)]].
    + exists bs, ts. split; [done|]. split; [|done].
      by apply sublist_inserts_r.
    + exists (bs ++ [created clk input]), (ts ++ [Date_now clk]).
      split; [done|]. split; [by apply sublist_app|].
      rewrite !fmap_app, Hids. f_equal.
      change ([created clk input !! "id"] = [Some (JStr (pretty (Date_now clk)))]).
      by rewrite created_id.
    + exists (<[i := updated clk status b]> bs), ts.
      split; [done|]. split; [by rewrite app_nil_r|].
      rewrite list_fmap_insert, updated_id, <- Hids.
      apply list_insert_id. rewrite list_lookup_fmap.
      apply list_find_Some in Hfind as (-> & _). done.
Qed.

(** X19. Where the clock readings of the creates differ pairwise, so do
    the stored ids: along a run from the empty collection whose creates
    all read different [Date.now()] values, no two stored bookings share
    an id. *)
Lemma ids_distinct_when_clock_advances ops :
  NoDup (create_times ops) → ids_distinct (run ops).
Proof.
  intros Hnd. destruct (run_ids ops) as (bs & ts & -> & Hsub & Hids).
  unfold ids_distinct. rewrite stored_collection, <- list_fmap_compose.
  change (id_of ∘ JObj) with (λ b : object, b !! "id"). rewrite Hids.
  apply NoDup_fmap_2; [|by eapply sublist_NoDup].
  intros t1 t2 [= Heq]. by apply (inj pretty).
Qed.

(** ** Reading a booking back *)

(** X20. Where no stored booking carries the id that the create
    generates, the lookup by that id right after an accepted create
    returns the created record. *)
Lemma get_after_create_fresh clk input (bs : list object) :
  accepted input = true →
  Forall (λ b, ¬ id_is (pretty (Date_now clk)) b) bs →
  get_bookings_id (pretty (Date_now clk))
    (post_bookings clk (JObj input) (collection bs)).2
  = (Response 200 (JObj (created clk input)),
     collection (bs ++ [created clk input])).
Proof.
  intros Hacc Hfresh. rewrite post_object, Hacc. cbn [snd].
  apply (get_found _ _ (length bs)).
  apply list_find_Some. split; [|split].
  - by apply list_lookup_middle.
  - apply created_id.
  - intros j b Hj Hlt. rewrite lookup_app_l in Hj by done.
    rewrite Forall_forall in Hfresh. eapply Hfresh, list_elem_of_lookup_2, Hj.
Qed.

(** C9, at two creates handled within one millisecond: the second create
    is answered 201 with its record, and the lookup by the id of that
    record, right after, returns the record of the first create. *)
Theorem get_after_twin_create :
  let f := run [Create noon (JObj jane)] in
  let answer := post_bookings noon (JObj john) f in
  answer.1
  = Response 201 (JObj (literal
      [ ("message", Some (JStr "Booking request received successfully"));
        ("booking", Some (JObj (created noon john))) ]))
  ∧ created noon john !! "id" = Some (JStr "1748779200000")
  ∧ get_bookings_id "1748779200000" answer.2
    = (Response 200 (JObj (created noon jane)), answer.2)
  ∧ created noon jane ≠ created noon john.
Proof.
  cbv zeta.
  assert (run [Create noon (JObj jane)] = collection [created noon jane])
    as -> by (unfold run; cbn [foldl step]; by rewrite post_object).
  rewrite post_object.
  assert (accepted john = true) as -> by reflexivity. cbn [fst snd].
  split; [done|]. split; [by rewrite created_id|]. split.
  - apply (get_found _ _ 0). apply list_find_Some. split; [done|].
    split; [by unfold id_is; rewrite created_id|]. intros j b _ Hlt. lia.
  - intros Heq. apply (f_equal (λ o : object, o !! "fullName")) in Heq.
    rewrite !created_copied in Heq by (left; set_solver). discriminate Heq.
Qed.

(** ** The scenario of the specification *)

(** The first booking, on a server whose data file does not exist yet. *)
Example first_booking :
  post_bookings noon (JObj jane) None
  = (Response 201 (JObj (literal
       [ ("message", Some (JStr "Booking request received successfully"));
         ("booking", Some (JObj (created noon jane))) ])),
     collection [created noon jane]).
Proof. vm_compute. reflexivity. Qed.

(** Confirming it an hour later, with the admin token. *)
Example confirm_booking :
  let answer :=
    app_put_admin_bookings_id (Some "Bearer Password1") later "1748779200000"
      (body_of [("status", JStr "confirmed")]) (collection [created noon jane]) in
  code answer.1 = 200%nat
  ∧ status_of <$> stored answer.2 = [Some (JStr "confirmed")]
  ∧ get (JObj (updated later (Some (JStr "confirmed")) (created noon jane)))
      "updatedAt" = Ok (Some (JStr "2025-06-01T13:00:00.000Z"))
  ∧ get (JObj (updated later (Some (JStr "confirmed")) (created noon jane)))
      "createdAt" = Ok (Some (JStr "2025-06-01T12:00:00.000Z")).
Proof. repeat split; vm_compute; reflexivity. Qed.

(** A data file that does not parse: every route that reads it answers
    500 and leaves it alone. *)
Example unreadable_file :
  get_bookings_id "1748779200000" (Some Malformed)
  = (message_response 500 "Error retrieving booking", Some Malformed)
  ∧ put_admin_bookings_id later "1748779200000"
      (body_of [("status", JStr "confirmed")]) (Some Malformed)
    = (message_response 500 "Error updating booking", Some Malformed)
  ∧ get_bookings (Some Malformed)
    = (message_response 500 "Error fetching bookings", Some Malformed).
Proof. repeat split; vm_compute; reflexivity. Qed.

(** ** The theorems at the sample requests *)

Lemma create_valid_witness :
  forallb (λ k, filled (jane !! k)) required = true
  ∧ ∃ b : object,
      (post_bookings noon (JObj jane) (collection [])).2 = collection [b]
      ∧ b !! "status" = Some (JStr "pending").
Proof.
  split; [reflexivity|].
  destruct (create_valid noon jane [] eq_refl) as (b & Hpost & Hstatus & _).
  exists b. by rewrite Hpost.
Defined.

Lemma create_invalid_witness :
  existsb (λ k, blank (delete "phone" jane !! k)) required = true
  ∧ (post_bookings noon (JObj (delete "phone" jane))
       (collection [created noon john])).1
    = message_response 400 "Required fields are missing".
Proof.
  split; [reflexivity|].
  apply (create_invalid noon (delete "phone" jane)
           (collection [created noon john])).
  reflexivity.
Defined.

Lemma update_frame_witness :
  Exists (id_is "1748779200000") [created noon jane]
  ∧ ∃ (i : nat) (b b' : object),
      list_find (id_is "1748779200000") [created noon jane] = Some (i, b)
      ∧ ∀ k, k ≠ "status" → k ≠ "updatedAt" → b' !! k = b !! k.
Proof.
  assert (Exists (id_is "1748779200000") [created noon jane]) as Hex.
  { apply Exists_cons_hd. reflexivity. }
  split; [exact Hex|].
  destruct (update_frame later "1748779200000"
              (list_to_map [("status", JStr "confirmed")])
              [created noon jane] Hex)
    as (i & b & b' & Hfind & _ & _ & Hframe & _).
  by exists i, b, b'.
Defined.

Lemma update_unknown_witness :
  Forall (λ b, ¬ id_is "42" b) [created noon jane]
  ∧ put_admin_bookings_id later "42"
      (body_of [("status", JStr "confirmed")]) (collection [created noon jane])
    = (message_response 404 "Booking not found",
       collection [created noon jane]).
Proof.
  assert (Forall (λ b, ¬ id_is "42" b) [created noon jane]) as Hnone.
  { apply Forall_singleton. unfold id_is. rewrite created_id. discriminate. }
  split; [exact Hnone|].
  exact (update_unknown later "42" _ [created noon jane] Hnone).
Defined.

Lemma update_any_string_witness :
  (list_to_map [("status", JStr "")] : object) !! "status" = Some (JStr "")
  ∧ Exists (id_is "1748779200000") [created noon jane]
  ∧ ∃ (i : nat) (b b' : object),
      list_find (id_is "1748779200000") [created noon jane] = Some (i, b)
      ∧ b' !! "status" = Some (JStr "").
Proof.
  assert ((list_to_map [("status", JStr "")] : object) !! "status"
          = Some (JStr "")) as Hs by reflexivity.
  assert (Exists (id_is "1748779200000") [created noon jane]) as Hex.
  { apply Exists_cons_hd. reflexivity. }
  split; [exact Hs|]. split; [exact Hex|].
  destruct (update_any_string later "1748779200000" _ ""
              [created noon jane] Hs Hex)
    as (i & b & b' & Hfind & _ & _ & Hstatus).
  by exists i, b, b'.
Defined.

(** ** The routes on any bookings file *)

(** The test of the create route is the negation of [accepted]. *)
Lemma validation_spec (input : object) :
  negb (truthy (input !! "fullName")) || negb (truthy (input !! "email"))
  || negb (truthy (input !! "phone")) || negb (truthy (input !! "checkIn"))
  || negb (truthy (input !! "checkOut"))
  = negb (accepted input).
Proof.
  unfold accepted. cbn [forallb required].
  by rewrite andb_true_r, <- !negb_andb, !andb_assoc.
Qed.


(** X2. The listing returns the stored document as it is, so on a
    collection it returns the bookings in stored order; right after a
    create it returns the former list with the new booking appended at
    the end when the create was accepted, and the former list when it was
    rejected. *)
Theorem listing_follows_creates (clk : clock) (input : object)
    (bs : list object) (v : json) :
  get_bookings (Some (Document v)) = (Response 200 v, Some (Document v))
  ∧ (get_bookings (collection bs)).1 = Response 200 (JArr (JObj <$> bs))
  ∧ (get_bookings (post_bookings clk (JObj input) (collection bs)).2).1
    = Response 200 (JArr (JObj <$>
        (if accepted input then bs ++ [created clk input] else bs))).
Proof.
  split; [done|]. split; [done|].
  rewrite post_object. by destruct (accepted input).
Qed.

(** X3. With a bookings file the routes cannot use as the list (text that
    does not parse, or a document that is not an array), a valid create,
    an update and a lookup by id are all answered 500, and the file is
    left exactly as it was: it is never overwritten or reinitialised. *)
Theorem unusable_file_is_kept (clk : clock) (id : string)
    (input status_input : object) (c : content) :
  unusable c = true →
  accepted input = true →
  post_bookings clk (JObj input) (Some c)
  = (message_response 500 "Error saving booking request", Some c)
  ∧ put_admin_bookings_id clk id (JObj status_input) (Some c)
    = (message_response 500 "Error updating booking", Some c)
  ∧ get_bookings_id id (Some c)
    = (message_response 500 "Error retrieving booking", Some c).
Proof.
  intros Hc Hacc. split; [|split].
  - unfold post_bookings, try_catch, bind, lift, ret.
    cbn [get ensureDataDirExists]. rewrite validation_spec, Hacc. cbn [negb].
    by destruct c as [|[]].
  - by destruct c as [|[]].
  - by destruct c as [|[]].
Qed.

Lemma unusable_file_is_kept_witness :
  unusable (Document (JObj jane)) = true
  ∧ accepted john = true
  ∧ get_bookings_id "1748779200000" (Some (Document (JObj jane)))
    = (message_response 500 "Error retrieving booking",
       Some (Document (JObj jane))).
Proof.
  split; [reflexivity|]. split; [reflexivity|].
  apply (unusable_file_is_kept noon "1748779200000" john jane
           (Document (JObj jane)));
    reflexivity.
Defined.

(** X4. The create route answers 400 exactly when one of the five
    required fields is falsy in the request (absent, null, false, zero or
    the empty string), whatever the bookings file holds; a body that is
    an array has none of the fields and is answered 400 too. *)
Theorem create_400_iff (clk : clock) (input : object) (l : list json)
    (f : file) :
  (code (post_bookings clk (JObj input) f).1 = 400%nat
   ↔ ∃ k, k ∈ required ∧ truthy (input !! k) = false)
  ∧ code (post_bookings clk (JArr l) f).1 = 400%nat.
Proof.
  split; [|by destruct f].
  assert (accepted input = false
          ↔ ∃ k, k ∈ required ∧ truthy (input !! k) = false) as <-.
  { unfold accepted, required. cbn [forallb]. split.
    - intros Hany.
      destruct (truthy (input !! "fullName")) eqn:H1;
        [|exists "fullName"; split; [set_solver|done]].
      destruct (truthy (input !! "email")) eqn:H2;
        [|exists "email"; split; [set_solver|done]].
      destruct (truthy (input !! "phone")) eqn:H3;
        [|exists "phone"; split; [set_solver|done]].
      destruct (truthy (input !! "checkIn")) eqn:H4;
        [|exists "checkIn"; split; [set_solver|done]].
      destruct (truthy (input !! "checkOut")) eqn:H5;
        [done|exists "checkOut"; split; [set_solver|done]].
    - intros (k & Hk & Hf).
      repeat (apply elem_of_cons in Hk as [->|Hk];
              [rewrite Hf; by rewrite ?andb_false_r|]).
      by apply elem_of_nil in Hk. }
  destruct (accepted input) eqn:Hacc.
  - split; [|done]. unfold post_bookings, try_catch, bind, lift, ret.
    cbn [get]. rewrite validation_spec, Hacc. cbn [negb].
    by destruct f as [[|[]]|].
  - split; [done|]. intros _. by rewrite post_rejected.
Qed.

(** ** What a create stores *)




(** ** What a run keeps *)

Lemma steps_keep (ops : list operation) (bs : list object) :
  ∃ bs' : list object,
    foldl step (collection bs) ops = collection bs'
    ∧ ∀ i b, bs !! i = Some b →
        ∃ b', bs' !! i = Some b'
              ∧ ∀ k, k ≠ "status" → k ≠ "updatedAt" → b' !! k = b !! k.
Proof.
  revert bs. induction ops as [|op ops IH]; intros bs; cbn [foldl].
  - exists bs. split; [done|]. intros i b Hb. by exists b.
  - destruct (step_collection bs op)
      as [->|[(clk & input & -> & _ & ->)
             |(clk & id & body & status & j & b0 & -> & Hst & Hfind & ->)]].
    + apply IH.
    + destruct (IH (bs ++ [created clk input])) as (bs' & -> & Hkeep).
      exists bs'. split; [done|]. intros i b Hb. apply Hkeep.
      by apply lookup_app_l_Some.
    + destruct (IH (<[j := updated clk status b0]> bs)) as (bs' & -> & Hkeep).
      exists bs'. split; [done|]. intros i b Hb.
      apply list_find_Some in Hfind as (Hj & _).
      destruct (decide (i = j)) as [->|Hne].
      * assert (b = b0) as -> by congruence.
        destruct (Hkeep j (updated clk status b0)) as (b' & Hb' & Hsame).
        { apply list_lookup_insert_eq. by eapply lookup_lt_Some. }
        exists b'. split; [done|]. intros k H1 H2.
        by rewrite Hsame, updated_other.
      * apply Hkeep. by rewrite list_lookup_insert_ne.
Qed.

Lemma run_collection (ops : list operation) :
  ∃ bs : list object, run ops = collection bs.
Proof.
  destruct (steps_keep ops []) as (bs & Hrun & _). by exists bs.
Qed.

(** X6. The store is append-only apart from the two properties an update
    writes.  Whatever operations follow, a booking stored at some position
    is still stored at that position, and all its properties other than
    [status] and [updatedAt] (its id, its createdAt, the guest's data) are
    as they were: no run deletes, moves or rewrites a booking. *)
Theorem run_keeps_bookings (ops more : list operation) (i : nat) (x : json) :
  stored (run ops) !! i = Some x →
  ∃ x' : json,
    stored (run (ops ++ more)) !! i = Some x'
    ∧ ∀ k, k ≠ "status" → k ≠ "updatedAt" → prop_of x' k = prop_of x k.
Proof.
  destruct (run_collection ops) as (bs & Hrun).
  unfold run in *. rewrite foldl_app, Hrun.
  destruct (steps_keep more bs) as (bs' & -> & Hkeep).
  rewrite !stored_collection, list_lookup_fmap.
  destruct (bs !! i) as [b|] eqn:Hb; [|done]. intros [= <-].
  destruct (Hkeep i b Hb) as (b' & Hb' & Hsame).
  exists (JObj b'). by rewrite list_lookup_fmap, Hb'.
Qed.

Lemma run_keeps_bookings_witness :
  stored (run [Create noon (JObj jane)]) !! 0%nat
  = Some (JObj (created noon jane))
  ∧ ∃ x' : json,
      stored (run ([Create noon (JObj jane)] ++ bogus_run)) !! 0%nat = Some x'
      ∧ prop_of x' "createdAt" = Some (JStr "2025-06-01T12:00:00.000Z").
Proof.
  assert (stored (run [Create noon (JObj jane)]) !! 0%nat
          = Some (JObj (created noon jane))) as H0 by reflexivity.
  split; [exact H0|].
  destruct (run_keeps_bookings [Create noon (JObj jane)] bogus_run 0 _ H0)
    as (x' & Hx' & Hsame).
  exists x'. split; [exact Hx'|].
  rewrite Hsame by discriminate. reflexivity.
Defined.

(** ** The ids and the number of the stored bookings *)

Lemma step_create_or_not (bs : list object) op :
  (accepted_create op = true
   ∧ ∃ clk input, op = Create clk (JObj input)
       ∧ step (collection bs) op = collection (bs ++ [created clk input]))
  ∨ (accepted_create op = false
     ∧ ∃ bs' : list object,
         step (collection bs) op = collection bs'
         ∧ (λ b : object, b !! "id") <$> bs' = (λ b : object, b !! "id") <$> bs
         ∧ length bs' = length bs).
Proof.
  destruct op as [clk body|clk id body]; cbn [step accepted_create].
  - destruct body as [| | | | |input];
      try (right; split; [done|]; exists bs; by rewrite post_not_object).
    rewrite post_object. destruct (accepted input) eqn:Hacc.
    + left. split; [done|]. by exists clk, input.
    + right. split; [done|]. by exists bs.
  - right. split; [done|].
    destruct (step_collection bs (UpdateStatus clk id body))
      as [Hsame|[(? & ? & [=] & _)
                |(clk' & id' & body' & status & i & b & [= <- <- <-] & _ & Hfind & Hstep)]];
      cbn [step] in *.
    + exists bs. by rewrite Hsame.
    + exists (<[i := updated clk status b]> bs). rewrite Hstep.
      split; [done|]. split; [|apply length_insert].
      rewrite list_fmap_insert, updated_id. apply list_insert_id.
      rewrite list_lookup_fmap.
      apply list_find_Some in Hfind as (-> & _). done.
Qed.

Lemma run_ids_count (ops : list operation) :
  ∃ bs : list object,
    run ops = collection bs
    ∧ (λ b : object, b !! "id") <$> bs = ids_issued ops
    ∧ length bs = length (filter accepted_create ops).
Proof.
  induction ops as [|op ops IH] using rev_ind.
  - by exists [].
  - destruct IH as (bs & Hrun & Hids & Hlen).
    rewrite run_snoc, Hrun. unfold ids_issued, create_times.
    rewrite filter_app, omap_app, fmap_app, length_app, filter_cons, filter_nil.
    fold (create_times (filter accepted_create ops)). fold (ids_issued ops).
    destruct (step_create_or_not bs op)
      as [(Hacc & clk & input & -> & ->)|(Hacc & bs' & -> & Hids' & Hlen')].
    + exists (bs ++ [created clk input]).
      rewrite decide_True by (by rewrite Hacc).
      split; [done|]. rewrite fmap_app, length_app, Hids, Hlen.
      split; [|done]. f_equal.
      change ([created clk input !! "id"] = [Some (JStr (pretty (Date_now clk)))]).
      by rewrite created_id.
    + exists bs'. rewrite decide_False by (rewrite Hacc; exact id).
      split; [done|]. rewrite Hids', Hlen', Hids, Hlen.
      by rewrite !app_nil_r, Nat.add_0_r.
Qed.

(** X7. After any run from the empty collection the store holds exactly
    one booking per accepted create, in the order of the creates, and the
    id of each is the decimal rendering of the [Date.now()] its create
    read: rejected creates and updates add no booking and change no id. *)
Theorem run_ids_and_count (ops : list operation) :
  id_of <$> stored (run ops) = ids_issued ops
  ∧ length (stored (run ops)) = length (filter accepted_create ops).
Proof.
  destruct (run_ids_count ops) as (bs & -> & Hids & Hlen).
  rewrite stored_collection, <- list_fmap_compose, length_fmap.
  split; [|done]. by rewrite <- Hids.
Qed.

Lemma ids_distinct_when_clock_advances_witness :
  NoDup (create_times [Create noon (JObj jane); Create later (JObj john)])
  ∧ ids_distinct (run [Create noon (JObj jane); Create later (JObj john)]).
Proof.
  assert (NoDup (create_times
            [Create noon (JObj jane); Create later (JObj john)])) as Hnd.
  { apply (bool_decide_unpack _). by vm_compute. }
  split; [exact Hnd|]. exact (ids_distinct_when_clock_advances _ Hnd).
Defined.

Lemma get_after_create_fresh_witness :
  accepted john = true
  ∧ Forall (λ b, ¬ id_is (pretty (Date_now later)) b) [created noon jane]
  ∧ get_bookings_id (pretty (Date_now later))
      (post_bookings later (JObj john) (collection [created noon jane])).2
    = (Response 200 (JObj (created later john)),
       collection ([created noon jane] ++ [created later john])).
Proof.
  assert (accepted john = true) as Hacc by reflexivity.
  assert (Forall (λ b, ¬ id_is (pretty (Date_now later)) b)
            [created noon jane]) as Hfresh.
  { apply Forall_singleton. unfold id_is. rewrite created_id.
    intros Heq. vm_compute in Heq. discriminate Heq. }
  split; [exact Hacc|]. split; [exact Hfresh|].
  exact (get_after_create_fresh later john [created noon jane] Hacc Hfresh).
Defined.

(** ** Lookups and updates by id *)

Lemma find_after_update clk id status (bs : list object) i b :
  list_find (id_is id) bs = Some (i, b) →
  list_find (id_is id) (<[i := updated clk status b]> bs)
  = Some (i, updated clk status b).
Proof.
  intros (Hi & Hid & Hfirst)%list_find_Some. apply list_find_Some.
  split; [apply list_lookup_insert_eq; by eapply lookup_lt_Some|].
  split; [unfold id_is; by rewrite updated_id|].
  intros j y Hj Hlt. rewrite list_lookup_insert_ne in Hj by lia.
  by eapply Hfirst.
Qed.

(** X8. The lookup by id on a collection answers 200 with the first
    stored booking that carries the id, and 404 exactly when no stored
    booking carries it; it never returns a booking with another id. *)
Theorem get_by_id_first_or_404 (id : string) (bs : list object) :
  (∃ (i : nat) (b : object),
      (get_bookings_id id (collection bs)).1 = Response 200 (JObj b)
      ∧ bs !! i = Some b ∧ id_is id b
      ∧ ∀ j b', (j < i)%nat → bs !! j = Some b' → ¬ id_is id b')
  ∨ ((get_bookings_id id (collection bs)).1
       = message_response 404 "Booking not found"
     ∧ Forall (λ b, ¬ id_is id b) bs).
Proof.
  destruct (list_find (id_is id) bs) as [[i b]|] eqn:Hfind.
  - left. exists i, b. rewrite (get_found id bs i b Hfind).
    apply list_find_Some in Hfind as (Hi & Hid & Hfirst).
    split; [done|]. split; [done|]. split; [done|].
    intros j b' Hlt Hj. by eapply Hfirst.
  - right. rewrite (get_missing id bs Hfind). split; [done|].
    by apply list_find_None in Hfind.
Qed.

(** X9. Reading an update back.  When an update is answered 200, the
    lookup by the same id right after returns exactly the booking the
    update answered with, also when several stored bookings share the id:
    both routes pick the first one, and an update does not change ids. *)
Theorem get_after_update (clk : clock) (id : string) (input : object)
    (bs : list object) :
  Exists (id_is id) bs →
  ∃ b' : object,
    (put_admin_bookings_id clk id (JObj input) (collection bs)).1
    = Response 200 (JObj (literal
        [ ("success", Some (JBool true));
          ("booking", Some (JObj b'));
          ("message", Some (JStr "Booking status updated successfully")) ]))
    ∧ (get_bookings_id id
         (put_admin_bookings_id clk id (JObj input) (collection bs)).2).1
      = Response 200 (JObj b').
Proof.
  intros Hex.
  destruct (list_find (id_is id) bs) as [[i b]|] eqn:Hfind.
  2: { apply list_find_None in Hfind. apply Exists_exists in Hex as (b & Hb & Hid).
       rewrite Forall_forall in Hfind. by destruct (Hfind b Hb). }
  exists (updated clk (input !! "status") b).
  rewrite (put_found clk id (JObj input) (input !! "status") bs i b) by done.
  split; [done|]. cbn [snd].
  by rewrite (get_found id _ i _ (find_after_update clk id _ bs i b Hfind)).
Qed.

Lemma get_after_update_witness :
  Exists (id_is "1748779200000") [created noon jane; created noon john]
  ∧ ∃ b' : object,
      (get_bookings_id "1748779200000"
         (put_admin_bookings_id later "1748779200000" (status_body "confirmed")
            (collection [created noon jane; created noon john])).2).1
      = Response 200 (JObj b').
Proof.
  assert (Exists (id_is "1748779200000")
            [created noon jane; created noon john]) as Hex.
  { apply Exists_cons_hd. reflexivity. }
  split; [exact Hex|].
  destruct (get_after_update later "1748779200000"
              (literal [("status", Some (JStr "confirmed"))]) _ Hex)
    as (b' & _ & Hget).
  by exists b'.
Defined.

Lemma updated_updated clk1 clk2 status1 status2 (b : object) :
  updated clk2 status2 (updated clk1 status1 b) = updated clk2 status2 b.
Proof.
  apply map_eq. intros k.
  destruct (decide (k = "updatedAt")) as [->|Hu].
  { by rewrite !updated_updatedAt. }
  destruct (decide (k = "status")) as [->|Hs].
  { by rewrite !updated_status. }
  by rewrite !updated_other.
Qed.

(** X10. The last update wins.  Two updates of the same id, one after the
    other, leave the store exactly as the second one alone would: no
    trace of the first status or of its timestamp is kept.  (With an
    unknown id both sides are the untouched collection.) *)
Theorem last_update_wins (clk1 clk2 : clock) (id : string)
    (input1 input2 : object) (bs : list object) :
  (put_admin_bookings_id clk2 id (JObj input2)
     (put_admin_bookings_id clk1 id (JObj input1) (collection bs)).2).2
  = (put_admin_bookings_id clk2 id (JObj input2) (collection bs)).2.
Proof.
  destruct (list_find (id_is id) bs) as [[i b]|] eqn:Hfind.
  - rewrite (put_found clk1 id (JObj input1) (input1 !! "status") bs i b)
      by done.
    cbn [snd].
    rewrite (put_found clk2 id (JObj input2) (input2 !! "status") _ i _ eq_refl
               (find_after_update clk1 id _ bs i b Hfind)).
    rewrite (put_found clk2 id (JObj input2) (input2 !! "status") bs i b)
      by done.
    cbn [snd]. by rewrite list_insert_insert_eq, updated_updated.
  - rewrite (put_missing clk1 id (JObj input1) (input1 !! "status")) by done.
    done.
Qed.

(** X11. An update whose body has no [status] still succeeds, and it
    erases the status of the matched booking: the property is assigned
    [undefined], which the rewrite of the file leaves out. *)
Theorem update_without_status_erases (clk : clock) (id : string)
    (input : object) (bs : list object) :
  input !! "status" = None →
  Exists (id_is id) bs →
  ∃ (i : nat) (b b' : object),
    list_find (id_is id) bs = Some (i, b)
    ∧ code (put_admin_bookings_id clk id (JObj input) (collection bs)).1
      = 200%nat
    ∧ stored (put_admin_bookings_id clk id (JObj input) (collection bs)).2 !! i
      = Some (JObj b')
    ∧ b' !! "status" = None
    ∧ b' !! "updatedAt" = Some (JStr (Date_toISOString clk)).
Proof.
  intros Hs Hex.
  destruct (list_find (id_is id) bs) as [[i b]|] eqn:Hfind.
  2: { apply list_find_None in Hfind. apply Exists_exists in Hex as (b & Hb & Hid).
       rewrite Forall_forall in Hfind. by destruct (Hfind b Hb). }
  exists i, b, (updated clk None b).
  rewrite (put_found clk id (JObj input) None bs i b)
    by (by simpl; rewrite ?Hs).
  split; [done|]. split; [done|]. cbn [snd].
  rewrite stored_collection, list_lookup_fmap.
  apply list_find_Some in Hfind as (Hi & _).
  rewrite list_lookup_insert_eq by (by eapply lookup_lt_Some).
  split; [done|]. split; [apply updated_status|apply updated_updatedAt].
Qed.

Lemma update_without_status_erases_witness :
  (∅ : object) !! "status" = None
  ∧ Exists (id_is "1748779200000") [created noon jane]
  ∧ created noon jane !! "status" = Some (JStr "pending")
  ∧ ∃ (i : nat) (b b' : object),
      stored (put_admin_bookings_id later "1748779200000" (JObj ∅)
                (collection [created noon jane])).2 !! i = Some (JObj b')
      ∧ b' !! "status" = None.
Proof.
  assert (Exists (id_is "1748779200000") [created noon jane]) as Hex.
  { apply Exists_cons_hd. reflexivity. }
  assert ((∅ : object) !! "status" = None) as Hnone by reflexivity.
  split; [exact Hnone|]. split; [exact Hex|]. split; [reflexivity|].
  destruct (update_without_status_erases later "1748779200000" ∅
              [created noon jane] Hnone Hex)
    as (i & b & b' & _ & _ & Hstored & Hstatus & _).
  by exists i, b, b'.
Defined.

(** ** Logging in and passing the guard *)

(** X12. The login succeeds exactly when the body's [password] is the
    string [Password1] (no other type and no other string passes).  On
    success the answer is 200 and carries a token which, sent the way the
    dashboard sends it, passes the guard; otherwise the answer is 401 and
    carries no token. *)
Theorem login_token_passes_guard (input : object) :
  (input !! "password" = Some (JStr "Password1")
   ∧ ∃ (r : response) (token : string),
       post_admin_login (JObj input) = Ok r
       ∧ code r = 200%nat
       ∧ prop_of (payload r) "token" = Some (JStr token)
       ∧ auth (Some (authorization_header token)) = Next)
  ∨ (input !! "password" ≠ Some (JStr "Password1")
     ∧ ∃ r : response,
         post_admin_login (JObj input) = Ok r
         ∧ code r = 401%nat
         ∧ prop_of (payload r) "token" = None
         ∧ prop_of (payload r) "success" = Some (JBool false)).
Proof.
  unfold post_admin_login. cbn [get].
  destruct (strict_eq_str (input !! "password") "Password1") eqn:Hpw.
  - left. apply strict_eq_str_spec in Hpw. split; [done|].
    eexists _, "Password1". split; [done|]. by repeat split.
  - right. split.
    + intros H%strict_eq_str_spec. congruence.
    + eexists. split; [done|]. by repeat split.
Qed.

(** X13. The guard lets a header through exactly when the header is a
    first piece without a space, one space, the secret, and then nothing
    or a space followed by anything.  So the bare secret, a header with
    two spaces after the scheme, and a token with a prefix or a suffix are
    all refused. *)
Theorem guard_passes_iff (h : string) :
  auth (Some h) = Next
  ↔ ∃ scheme rest,
      no_sep " " scheme = true
      ∧ (rest = "" ∨ ∃ r, rest = String " " r)
      ∧ h = scheme +:+ String " " (secret +:+ rest).
Proof.
  unfold auth. split.
  - case_bool_decide as Htok; [|done]. intros _.
    destruct (split_second_inv _ _ _ Htok) as (scheme & rest & Hs & _ & Hr & ->).
    by exists scheme, rest.
  - intros (scheme & rest & Hs & Hr & ->).
    rewrite (split_second " " scheme secret rest Hs eq_refl Hr).
    by rewrite bool_decide_eq_true_2.
Qed.

Example guard_refusals :
  auth (Some "Password1") = Answer forbidden
  ∧ auth (Some "Bearer  Password1") = Answer forbidden
  ∧ auth (Some "Bearer Password12") = Answer forbidden
  ∧ auth (Some "Bearer password1") = Answer forbidden
  ∧ auth (Some "") = Answer forbidden.
Proof. by repeat split. Qed.

(** ** The dashboard and the update route *)

Lemma spread_is_updated clk newStatus (b : object) :
  literal [ ("status", Some (JStr newStatus));
            ("updatedAt", Some (JStr (Date_toISOString clk))) ] ∪ b
  = updated clk (Some (JStr newStatus)) b.
Proof.
  unfold literal, updated. cbn [foldl fst snd set_prop].
  by rewrite <- !insert_union_l, (left_id_L ∅ (∪)).
Qed.

Lemma only_match (id : string) (bs : list object) i j b bj :
  ids_distinct (collection bs) →
  bs !! i = Some b → id_is id b → bs !! j = Some bj → id_is id bj → j = i.
Proof.
  unfold ids_distinct. rewrite stored_collection, <- list_fmap_compose.
  intros Hnd Hi Hb Hj Hbj. unfold id_is in Hb, Hbj.
  apply (NoDup_lookup _ j i (Some (JStr id)) Hnd);
    rewrite list_lookup_fmap; [rewrite Hj|rewrite Hi]; simpl; congruence.
Qed.

Lemma get_status_body s : get (status_body s) "status" = Ok (Some (JStr s)).
Proof.
  unfold status_body, literal. cbn [foldl fst snd get].
  by rewrite lookup_set_prop_eq.
Qed.

(** The header the dashboard builds from the token of the login. *)
Lemma auth_dashboard : auth (Some (authorization_header secret)) = Next.
Proof. vm_compute. reflexivity. Qed.

(** X14. The dashboard keeps its list in step with the server.  When the
    stored ids are pairwise distinct and the dashboard updates a booking
    whose id the server generated, the list it computes locally after
    the request is, apart from the [updatedAt] it stamps with its own
    clock, the collection the server has stored: with the server's
    timestamp the two are equal. *)
Theorem dashboard_mirrors_update (clk : clock) (t : Z)
    (newStatus iso : string) (bs : list object) :
  ids_distinct (collection bs) →
  Exists (id_is (pretty t)) bs →
  (app_put_admin_bookings_id (Some (authorization_header secret)) clk
     (pretty t) (status_body newStatus) (collection bs)).2
  = collection
      (handleUpdateStatus_local (pretty t) newStatus (Date_toISOString clk) bs)
  ∧ ∀ j k, k ≠ "updatedAt" →
      (handleUpdateStatus_local (pretty t) newStatus iso bs !! j) ≫= (.!! k)
      = (handleUpdateStatus_local (pretty t) newStatus
           (Date_toISOString clk) bs !! j) ≫= (.!! k).
Proof.
  intros Hnd Hex. set (id := pretty t). split.
  - destruct (list_find (id_is id) bs) as [[i b]|] eqn:Hfind.
    2: { apply list_find_None in Hfind.
         apply Exists_exists in Hex as (b & Hb & Hid).
         rewrite Forall_forall in Hfind. by destruct (Hfind b Hb). }
    unfold app_put_admin_bookings_id, guarded. rewrite auth_dashboard.
    rewrite (put_found clk id (status_body newStatus) (Some (JStr newStatus))
               bs i b (get_status_body _) Hfind).
    cbn [snd]. f_equal.
    pose proof Hfind as (Hi & Hid & _)%list_find_Some.
    unfold handleUpdateStatus_local. apply list_eq. intros j.
    rewrite list_lookup_fmap.
    destruct (decide (j = i)) as [->|Hne].
    + rewrite list_lookup_insert_eq by (by eapply lookup_lt_Some).
      rewrite Hi. cbn [fmap option_fmap option_map].
      rewrite (proj2 (strict_eq_str_spec _ _) Hid).
      by rewrite spread_is_updated.
    + rewrite list_lookup_insert_ne by done.
      destruct (bs !! j) as [bj|] eqn:Hj; [|reflexivity].
      cbn [fmap option_fmap option_map].
      destruct (strict_eq_str (bj !! "id") id) eqn:Hbj; [|reflexivity].
      apply strict_eq_str_spec in Hbj.
      by destruct (Hne (only_match id bs i j b bj Hnd Hi Hid Hj Hbj)).
  - intros j k Hk. unfold handleUpdateStatus_local.
    do 2 rewrite list_lookup_fmap.
    destruct (bs !! j) as [bj|];
      cbn [fmap option_fmap option_map mbind option_bind]; [|reflexivity].
    destruct (strict_eq_str (bj !! "id") id); [|reflexivity].
    unfold literal. cbn [foldl fst snd set_prop].
    rewrite !lookup_union. by rewrite !(lookup_insert_ne _ "updatedAt").
Qed.

Lemma dashboard_mirrors_update_witness :
  ids_distinct (collection [created noon jane; created later john])
  ∧ Exists (id_is (pretty 1748782800000%Z))
      [created noon jane; created later john]
  ∧ (app_put_admin_bookings_id (Some (authorization_header secret)) later
       (pretty 1748782800000%Z) (status_body "cancelled")
       (collection [created noon jane; created later john])).2
    = collection
        (handleUpdateStatus_local (pretty 1748782800000%Z) "cancelled"
           (Date_toISOString later) [created noon jane; created later john]).
Proof.
  assert (ids_distinct (collection [created noon jane; created later john]))
    as Hnd.
  { unfold ids_distinct. rewrite stored_collection.
    cbn [fmap list_fmap id_of]. rewrite !created_id.
    apply NoDup_cons. split; [|apply NoDup_singleton].
    intros Hin%list_elem_of_singleton. vm_compute in Hin. discriminate Hin. }
  assert (Exists (id_is (pretty 1748782800000%Z))
            [created noon jane; created later john]) as Hex.
  { apply Exists_cons_tl, Exists_cons_hd. reflexivity. }
  split; [exact Hnd|]. split; [exact Hex|].
  exact (proj1 (dashboard_mirrors_update later 1748782800000 "cancelled" ""
                  _ Hnd Hex)).
Defined.

(** X15. The buttons of a dashboard row only ever send one of the values
    [confirmed], [cancelled], [completed]; the value a button sends
    differs from the booking's current status; and [completed] is offered
    exactly for a booking whose status is [confirmed].  An update sent by
    a button is therefore one that keeps the status enumeration. *)
Theorem dashboard_actions_enumerated (clk : clock) (id : string)
    (status : jsval) (a : string) :
  a ∈ actions status →
  a ∈ statuses
  ∧ a ≠ "pending"
  ∧ status ≠ Some (JStr a)
  ∧ (a = "completed" → status = Some (JStr "confirmed"))
  ∧ enumerated_update (UpdateStatus clk id (status_body a)) = true.
Proof.
  unfold actions. intros Ha.
  destruct (strict_eq_str status "confirmed") eqn:H1;
    destruct (strict_eq_str status "cancelled") eqn:H2;
    destruct (strict_eq_str status "completed") eqn:H3;
    cbn [negb andb app] in Ha;
    repeat (apply elem_of_cons in Ha as [->|Ha]);
    try (by apply elem_of_nil in Ha);
    (split; [set_solver|]); (split; [done|]);
    (split; [intros ->; simpl in *; by repeat case_bool_decide|]);
    (split; [|done]); try done;
    intros _; by apply strict_eq_str_spec.
Qed.

Lemma dashboard_actions_enumerated_witness :
  "completed" ∈ actions (Some (JStr "confirmed"))
  ∧ "completed" ∈ statuses.
Proof.
  assert ("completed" ∈ actions (Some (JStr "confirmed"))) as Ha.
  { apply list_elem_of_further, list_elem_of_here. }
  split; [exact Ha|].
  exact (proj1 (dashboard_actions_enumerated noon "1748779200000" _ _ Ha)).
Defined.

(** X16. The badge of a row tells the status apart: the four enumerated
    values get four different classes, and the grey class is given
    exactly to a status outside the enumeration (a missing one, another
    string, a value that is not a string). *)
Theorem badge_identifies_status (v w : jsval) :
  (getStatusBadgeClass v = "bg-gray-100 text-gray-800" ↔ enumerated v = false)
  ∧ (enumerated v = true → enumerated w = true →
     getStatusBadgeClass v = getStatusBadgeClass w → v = w).
Proof.
  assert (∀ u, enumerated u = true →
            ∃ s, u = Some (JStr s) ∧ s ∈ statuses) as Henum.
  { intros [[| | |s| |]|]; try done. simpl. intros H%bool_decide_eq_true.
    by exists s. }
  split.
  - destruct (enumerated v) eqn:Hv.
    + destruct (Henum v Hv) as (s & -> & Hs). unfold statuses in Hs.
      repeat (apply elem_of_cons in Hs as [->|Hs]; [done|]).
      by apply elem_of_nil in Hs.
    + split; [done|]. intros _.
      destruct v as [[| | |s| |]|]; try done.
      simpl in Hv. apply bool_decide_eq_false in Hv.
      unfold getStatusBadgeClass. cbn [strict_eq_str].
      repeat (case_bool_decide;
              [exfalso; apply Hv; subst s; unfold statuses; set_solver|]).
      done.
  - intros Hv Hw.
    destruct (Henum v Hv) as (s & -> & Hs), (Henum w Hw) as (s' & -> & Hs').
    unfold statuses in Hs, Hs'.
    repeat (apply elem_of_cons in Hs as [->|Hs]);
      try (by apply elem_of_nil in Hs);
      repeat (apply elem_of_cons in Hs' as [->|Hs']);
      try (by apply elem_of_nil in Hs'); done.
Qed.

(** ** Independent operations *)

Lemma put_store clk id input (bs : list object) :
  (put_admin_bookings_id clk id (JObj input) (collection bs)).2
  = collection (after_update clk id input bs).
Proof.
  unfold after_update.
  destruct (list_find (id_is id) bs) as [[i b]|] eqn:Hfind.
  - by rewrite (put_found clk id (JObj input) (input !! "status") bs i b).
  - by rewrite (put_missing clk id (JObj input) (input !! "status")).
Qed.

(** Replacing a booking by its update does not change which booking a
    search by id finds. *)
Lemma find_after_other_update clk id' status (bs : list object) i b :
  bs !! i = Some b →
  list_find (id_is id') (<[i := updated clk status b]> bs)
  = (λ jx, (jx.1, if decide (jx.1 = i) then updated clk status b else jx.2))
      <$> list_find (id_is id') bs.
Proof.
  intros Hi.
  assert (id_is id' (updated clk status b) ↔ id_is id' b) as Hsame.
  { unfold id_is. by rewrite updated_id. }
  destruct (list_find (id_is id') bs) as [[j x]|] eqn:Hfind;
    cbn [fmap option_fmap option_map fst snd].
  - apply list_find_Some in Hfind as (Hj & Hx & Hfirst).
    apply list_find_Some. case_decide as Hji.
    + subst j. assert (x = b) as -> by congruence.
      split; [apply list_lookup_insert_eq; by eapply lookup_lt_Some|].
      split; [by apply Hsame|]. intros j' y Hj' Hlt.
      rewrite list_lookup_insert_ne in Hj' by lia. by eapply Hfirst.
    + split; [by rewrite list_lookup_insert_ne|]. split; [done|].
      intros j' y Hj' Hlt. destruct (decide (j' = i)) as [->|Hne].
      * rewrite list_lookup_insert_eq in Hj' by (by eapply lookup_lt_Some).
        injection Hj' as <-. rewrite Hsame. by eapply Hfirst.
      * rewrite list_lookup_insert_ne in Hj' by done. by eapply Hfirst.
  - apply list_find_None. apply list_find_None in Hfind.
    apply Forall_insert; [done|]. rewrite Hsame.
    rewrite Forall_forall in Hfind. eapply Hfind, list_elem_of_lookup_2, Hi.
Qed.

(** X17. Updates of different ids are independent: applied in either
    order they leave the same store, each booking carrying the status and
    the timestamp of its own update.  This also covers an id that no
    booking carries. *)
Theorem updates_of_different_ids_commute (clk1 clk2 : clock)
    (id1 id2 : string) (input1 input2 : object) (bs : list object) :
  id1 ≠ id2 →
  (put_admin_bookings_id clk2 id2 (JObj input2)
     (put_admin_bookings_id clk1 id1 (JObj input1) (collection bs)).2).2
  = (put_admin_bookings_id clk1 id1 (JObj input1)
       (put_admin_bookings_id clk2 id2 (JObj input2) (collection bs)).2).2.
Proof.
  intros Hne. rewrite !put_store. f_equal. unfold after_update.
  destruct (list_find (id_is id1) bs) as [[i1 b1]|] eqn:H1;
    destruct (list_find (id_is id2) bs) as [[i2 b2]|] eqn:H2.
  - pose proof H1 as (Hi1 & Hb1 & _)%list_find_Some.
    pose proof H2 as (Hi2 & Hb2 & _)%list_find_Some.
    assert (i1 ≠ i2) as Hi.
    { intros ->. unfold id_is in *. congruence. }
    rewrite (find_after_other_update clk1 id2 _ bs i1 b1 Hi1), H2.
    rewrite (find_after_other_update clk2 id1 _ bs i2 b2 Hi2), H1.
    cbn [fmap option_fmap option_map fst snd].
    rewrite !decide_False by done. by apply list_insert_insert_ne.
  - pose proof H1 as (Hi1 & _)%list_find_Some.
    by rewrite (find_after_other_update clk1 id2 _ bs i1 b1 Hi1), ?H1, ?H2.
  - pose proof H2 as (Hi2 & _)%list_find_Some.
    by rewrite (find_after_other_update clk2 id1 _ bs i2 b2 Hi2), ?H1, ?H2.
  - by rewrite ?H1, ?H2.
Qed.

Lemma updates_of_different_ids_commute_witness :
  "1748779200000" ≠ "1748782800000"
  ∧ (put_admin_bookings_id later "1748782800000" (JObj ∅)
       (put_admin_bookings_id later "1748779200000" (JObj ∅)
          (collection [created noon jane; created later john])).2).2
    = (put_admin_bookings_id later "1748779200000" (JObj ∅)
         (put_admin_bookings_id later "1748782800000" (JObj ∅)
            (collection [created noon jane; created later john])).2).2.
Proof.
  assert ("1748779200000" ≠ "1748782800000") as Hne by discriminate.
  split; [exact Hne|].
  exact (updates_of_different_ids_commute later later _ _ ∅ ∅
           [created noon jane; created later john] Hne).
Defined.

(** X18. An update of a stored booking and a create are independent: in
    either order they leave the same store, the new booking at the end
    and the update on the booking it matched before the create. *)
Theorem update_and_create_commute (clk1 clk2 : clock) (id : string)
    (status_input input : object) (bs : list object) :
  Exists (id_is id) bs →
  (post_bookings clk2 (JObj input)
     (put_admin_bookings_id clk1 id (JObj status_input) (collection bs)).2).2
  = (put_admin_bookings_id clk1 id (JObj status_input)
       (post_bookings clk2 (JObj input) (collection bs)).2).2.
Proof.
  intros Hex.
  destruct (list_find (id_is id) bs) as [[i b]|] eqn:Hfind.
  2: { apply list_find_None in Hfind. apply Exists_exists in Hex as (b & Hb & Hid).
       rewrite Forall_forall in Hfind. by destruct (Hfind b Hb). }
  rewrite put_store, !post_object. unfold after_update at 1. rewrite Hfind.
  destruct (accepted input); cbn [snd]; rewrite put_store; unfold after_update.
  - rewrite (list_find_app_l _ _ _ _ _ Hfind). f_equal.
    apply list_find_Some in Hfind as (Hi & _).
    symmetry. apply insert_app_l. by eapply lookup_lt_Some.
  - by rewrite Hfind.
Qed.

Lemma update_and_create_commute_witness :
  Exists (id_is "1748779200000") [created noon jane]
  ∧ (post_bookings later (JObj john)
       (put_admin_bookings_id later "1748779200000" (status_body "confirmed")
          (collection [created noon jane])).2).2
    = (put_admin_bookings_id later "1748779200000" (status_body "confirmed")
         (post_bookings later (JObj john) (collection [created noon jane])).2).2.
Proof.
  assert (Exists (id_is "1748779200000") [created noon jane]) as Hex.
  { apply Exists_cons_hd. reflexivity. }
  split; [exact Hex|].
  exact (update_and_create_commute later later "1748779200000"
           (literal [("status", Some (JStr "confirmed"))]) john
           [created noon jane] Hex).
Defined.
